(** * vds-slice: the request pipeline of package [api]

    A shallow embedding of the endpoint handlers of the vds-slice server
    (error classification, query parsing, the authorization-gated compute
    cache, the per-variant [execute] methods) together with the properties
    the specification states about them.

    Go packages are rendered as modules: [strings] and [fmt] (the two
    standard-library functions the handlers call), [core] (errors,
    connections, the engine handle), [cache] (the [Cache] interface), [gin]
    (the part of the request context the handlers touch) and [api] (the
    handlers).  Definitions come first, the properties follow. *)

From Stdlib Require Import ZArith QArith Floats.SpecFloat Ascii String.
From stdpp Require Import base strings gmap list pretty.

#[local] Open Scope Z_scope.
#[local] Open Scope string_scope.
#[local] Open Scope list_scope.

(** Go's [[]byte]. *)
Definition bytes : Type := list Byte.byte.

(** Go's [float32]: IEEE-754 binary32 data, with its comparisons
    ([SFltb], [SFleb]; any comparison with a NaN is false). *)
Definition float32 : Type := spec_float.

Definition is_float32 (x : float32) : bool := valid_binary 24 128 x.

(** An untyped integer constant converted to [float32]. *)
Definition float32_const (n : Z) : float32 := binary_normalize 24 128 n 0 false.

(** HTTP status codes of [net/http] used by the handlers. *)
Module http.
Definition StatusOK : Z := 200.
Definition StatusBadRequest : Z := 400.
Definition StatusInternalServerError : Z := 500.
End http.

(* ===================================================================== *)
(** ** Standard library: strings.ToLower and the verbs of fmt.Sprintf *)
(* ===================================================================== *)
Module strings.

(** Lower-casing of one byte; letters outside ASCII are left alone. *)
Definition toLowerAscii (c : ascii) : ascii :=
  let n := N_of_ascii c in
  if ((65 <=? n) && (n <=? 90))%N then ascii_of_N (n + 32) else c.

(** Every byte is below [utf8.RuneSelf]. *)
Fixpoint isASCII (s : string) : bool :=
  match s with
  | EmptyString => true
  | String c rest => (N_of_ascii c <? 128)%N && isASCII rest
  end.

(** Some byte is one of ['A'..'Z']. *)
Fixpoint hasUpper (s : string) : bool :=
  match s with
  | EmptyString => false
  | String c rest =>
      ((65 <=? N_of_ascii c) && (N_of_ascii c <=? 90))%N || hasUpper rest
  end.

(** The loop of the ASCII path: ['A'..'Z'] moved to ['a'..'z']. *)
Fixpoint lowerASCII (s : string) : string :=
  match s with
  | EmptyString => EmptyString
  | String c rest => String (toLowerAscii c) (lowerASCII rest)
  end.

(** [strings.Map(unicode.ToLower, s)], the path taken by a string with a
    byte outside ASCII; it decodes UTF-8 and maps each rune through the
    Unicode case tables, which are not part of this development: a
    parameter. *)
Class Unicode : Type := {
  MapToLower : string → string
}.

(** [strings.ToLower]: a string of ASCII bytes is returned as it is when
    it has no upper-case letter and with its letters lower-cased when it
    has one; any other string goes through the Unicode tables. *)
Definition ToLower `{Unicode} (s : string) : string :=
  if isASCII s then
    if hasUpper s then lowerASCII s else s
  else MapToLower s.

(** [strings.Contains(s, substr)] *)
Fixpoint Contains (s substr : string) : bool :=
  String.prefix substr s
  || match s with
     | EmptyString => false
     | String _ rest => Contains rest substr
     end.

End strings.

Module fmt.

(** [%d] *)
Definition verb_d (n : Z) : string := pretty n.

(** [num / den] rounded to the nearest integer, ties to even
    ([num >= 0], [den > 0]). *)
Definition round_half_even (num den : Z) : Z :=
  let q := num / den in
  let r := num mod den in
  match (2 * r ?= den)%Z with
  | Lt => q
  | Gt => q + 1
  | Eq => if Z.even q then q else q + 1
  end.

(** [m * 2^e * 10^6], correctly rounded. *)
Definition scaled6 (m : positive) (e : Z) : Z :=
  if (0 <=? e)%Z then Z.pos m * 2 ^ e * 1000000
  else round_half_even (Z.pos m * 1000000) (2 ^ (- e)).

Definition pad6 (digits : string) : string :=
  String.concat "" (replicate (6 - String.length digits) "0") +:+ digits.

Definition fixed6 (n : Z) : string :=
  pretty (n / 1000000) +:+ "." +:+ pad6 (pretty (n mod 1000000)).

(** [%f] of a [float32]: six digits after the point. *)
Definition verb_f (x : float32) : string :=
  match x with
  | S754_nan => "NaN"
  | S754_infinity false => "+Inf"
  | S754_infinity true => "-Inf"
  | S754_zero s => (if s then "-" else "") +:+ "0.000000"
  | S754_finite s m e => (if s then "-" else "") +:+ fixed6 (scaled6 m e)
  end.

End fmt.

(* ===================================================================== *)
(** ** Package core *)
(* ===================================================================== *)
Module core.

(** A Go [error] value, by dynamic type: the two error kinds of package
    [core], and every other error type ([*json.SyntaxError], validator
    errors, ...).  A nil error is [None : option error]. *)
Inductive error : Type :=
| InvalidArgument (msg : string)
| InternalError (msg : string)
| OtherError (msg : string).

(** [err.Error()] *)
Definition Error (e : error) : string :=
  match e with
  | InvalidArgument msg | InternalError msg | OtherError msg => msg
  end.

Definition NewInvalidArgument (msg : string) : error := InvalidArgument msg.

(** A Go result pair [(value, err)]: [Ok] when [err == nil]. *)
Inductive result (A : Type) : Type :=
| Ok (a : A)
| Err (e : error).
Arguments Ok {A} a.
Arguments Err {A} e.

Definition err_of {A} (r : result A) : option error :=
  match r with Ok _ => None | Err e => Some e end.

Definition isOk {A} (r : result A) : bool :=
  match r with Ok _ => true | Err _ => false end.

(** The [Connection] interface: the one method the handlers call. *)
Class Connection (C : Type) : Type := {
  IsAuthorizedToRead : C → bool
}.

(** [type ConnectionMaker func(path, sas string) (Connection, error)] *)
Definition ConnectionMaker (C : Type) : Type := string → string → result C.

(** Modelled from the spec: the axis enumeration and [GetAxis] are declared
    outside src.  Section 4.4 has the direction token range over inline,
    crossline and the sample axis; scenario A and the endpoint tests also
    use the index-based token "i".  An unknown token is an InvalidArgument
    that quotes the token and lists the valid options (scenario B: the
    message contains [invalid direction 'unknown', valid options are]). *)
Inductive Axis : Type :=
| AxisI | AxisJ | AxisK
| AxisInline | AxisCrossline
| AxisDepth | AxisTime | AxisSample.

(** Modelled from the spec: the table of direction tokens, outside src
    (section 4.4 and scenario A). *)
Definition axisTokens : list (string * Axis) :=
  [ ("i", AxisI); ("j", AxisJ); ("k", AxisK);
    ("inline", AxisInline); ("crossline", AxisCrossline);
    ("depth", AxisDepth); ("time", AxisTime); ("sample", AxisSample) ].

(** Modelled from the spec: the list of valid options that the error of an
    unknown direction carries (section 4.4), outside src. *)
Definition axisOptions : string :=
  "i, j, k, inline, crossline or depth/time/sample".

Fixpoint lookupToken {A} (table : list (string * A)) (token : string)
    : option A :=
  match table with
  | [] => None
  | (name, a) :: rest =>
      if String.eqb name token then Some a else lookupToken rest token
  end.

(** Modelled from the spec: [core.GetAxis], outside src.  A token of the
    table gives its axis; any other token is an InvalidArgument that quotes
    it and lists the valid options (section 4.4, scenario B). *)
Definition GetAxis (direction : string) : result Axis :=
  match lookupToken axisTokens direction with
  | Some axis => Ok axis
  | None =>
      Err (NewInvalidArgument
             ("invalid direction '" +:+ direction
              +:+ "', valid options are: " +:+ axisOptions))
  end.

(** The types and token decoders of package [core] that the [execute]
    methods use and that are declared outside src: taken as parameters. *)
Class Engine : Type := {
  Bound : Type;
  RegularSurface : Type;
  Values : RegularSurface → list (list float32);
  CoordinateSystem : Type;
  InterpolationMethod : Type;
  GetCoordinateSystem : string → result CoordinateSystem;
  GetInterpolationMethod : string → result InterpolationMethod
}.

(** The engine handle, an oracle for the native library: one field per
    method the handlers call, with the method's arguments. *)
Record DSHandle `{Engine} : Type := mkDSHandle {
  GetMetadata : result bytes;
  GetSliceMetadata : Z → Axis → list Bound → result bytes;
  GetSlice : Z → Axis → list Bound → result bytes;
  GetFenceMetadata : list (list float32) → result bytes;
  GetFence : CoordinateSystem → list (list float32) → InterpolationMethod
             → option float32 → result bytes;
  GetAttributeMetadata : list (list float32) → result bytes;
  GetAttributesAlongSurface :
    RegularSurface → float32 → float32 → float32 → list string
    → InterpolationMethod → result (list bytes);
  GetAttributesBetweenSurfaces :
    RegularSurface → RegularSurface → float32 → list string
    → InterpolationMethod → result (list bytes)
}.

(** [core.NewDSHandle(conn)], declared outside src: a parameter.  It
    fails when the dataset cannot be opened with the connection. *)
Class HandleOpener `{Engine} (C : Type) : Type := {
  NewDSHandle : C → result DSHandle
}.

(** The calls made on a handle, in the order they are made. *)
Inductive EngineCall : Type :=
| CallGetMetadata
| CallGetSliceMetadata
| CallGetSlice
| CallGetFenceMetadata
| CallGetFence
| CallGetAttributeMetadata
| CallGetAttributesAlongSurface
| CallGetAttributesBetweenSurfaces.

(** A computation against the engine: its value and the calls it made. *)
Definition Eng (A : Type) : Type := A * list EngineCall.

Definition eng_ret {A} (a : A) : Eng A := (a, []).

Definition eng_bind {A B} (c : Eng A) (k : A → Eng B) : Eng B :=
  let '(a, calls) := c in
  let '(b, calls') := k a in
  (b, calls ++ calls').

Definition call {A} (name : EngineCall) (r : A) : Eng A := (r, [name]).

End core.
Export core.

Notation "'let+' x ':=' c 'in' k" := (eng_bind c (fun x => k))
  (at level 10, x pattern, c at level 100, k at level 200, only parsing).

(** [x, err := f(); if err != nil { return }] inside an [execute] method. *)
Definition eng_check {A B} (r : result A) (k : A → Eng (result B))
    : Eng (result B) :=
  match r with
  | Err err => eng_ret (Err err)
  | Ok a => k a
  end.

Notation "'check' x ':=' r 'in' k" := (eng_check r (fun x => k))
  (at level 10, x pattern, r at level 100, k at level 200, only parsing).

(* ===================================================================== *)
(** ** Package cache *)
(* ===================================================================== *)
Module cache.

(** Modelled from the spec: the entry type and its constructor are declared
    outside src.  Section 3: a CacheEntry is the immutable pair of the
    metadata document and the ordered data blocks. *)
Record CacheEntry : Type := mkCacheEntry {
  entryData : list bytes;
  entryMetadata : bytes
}.

(** Modelled from the spec: [cache.NewCacheEntry] and the two accessors,
    outside src; the entry holds what it was built from (section 3). *)
Definition NewCacheEntry (data : list bytes) (metadata : bytes) : CacheEntry :=
  mkCacheEntry data metadata.

Definition Data (entry : CacheEntry) : list bytes := entryData entry.
Definition Metadata (entry : CacheEntry) : bytes := entryMetadata entry.

(** The [Cache] interface the endpoint holds; [T] is the state of the
    cache object.  [Get] returns the entry and whether the key was found,
    and leaves the mapping as it is (the recency bookkeeping of an
    implementation is not part of [T]); [Set_] returns the new state and
    whether the entry was accepted. *)
Class Cache (T : Type) : Type := {
  Get : T → string → CacheEntry * bool;
  Set_ : T → string → CacheEntry → T * bool
}.

(** Modelled from the spec: the implementations of [Cache] are outside src.
    Section 3: the ComputeCache is a mapping from cache key to entry, and
    an insert puts or overwrites the entry at its key.  The byte budget
    and the eviction it triggers are left out: this is the cache while the
    budget is not reached, and it is used below for what happens at the
    key of the request only; what a request does to a cache of any kind
    is stated over the [Cache] interface. *)
#[global] Instance MapCache : Cache (gmap string CacheEntry) := {|
  Get m key :=
    match m !! key with
    | Some entry => (entry, true)
    | None => (mkCacheEntry [] [], false)
    end;
  Set_ m key entry := (<[key := entry]> m, true)
|}.

End cache.

(* ===================================================================== *)
(** ** Package gin: the request context *)
(* ===================================================================== *)
Module gin.

(** Values stored with [ctx.Set]. *)
Inductive Value : Type :=
| VString (s : string)
| VBool (b : bool).

(** What has been written to the response writer. *)
Inductive Body : Type :=
| NoBody
| DataBody (contentType : string) (buffer : bytes)
| MultipartBody (parts : list bytes).

Record Context : Type := mkContext {
  Query : gmap string string;   (* URL query parameters *)
  Keys : gmap string Value;     (* ctx.Set / ctx.Get *)
  Status : option Z;            (* status written, if any *)
  Errors : list error;          (* ctx.Errors *)
  Aborted : bool;               (* ctx.IsAborted() *)
  Written : Body
}.

Definition empty (query : gmap string string) : Context :=
  mkContext query ∅ None [] false NoBody.

(** [ctx.GetQuery(key)] *)
Definition GetQuery (ctx : Context) (key : string) : string * bool :=
  match Query ctx !! key with
  | Some v => (v, true)
  | None => ("", false)
  end.

(** [ctx.Set(key, value)] *)
Definition Set_ (key : string) (v : Value) (ctx : Context) : Context :=
  mkContext (Query ctx) (<[key := v]> (Keys ctx)) (Status ctx)
            (Errors ctx) (Aborted ctx) (Written ctx).

(** [ctx.AbortWithError(code, err)]: the status is written, the error is
    pushed on [ctx.Errors] and the pending handlers are cancelled. *)
Definition AbortWithError (code : Z) (err : error) (ctx : Context) : Context :=
  mkContext (Query ctx) (Keys ctx) (Some code)
            (Errors ctx ++ [err]) true (Written ctx).

(** [ctx.Data(code, contentType, data)] *)
Definition Data (code : Z) (contentType : string) (data : bytes)
    (ctx : Context) : Context :=
  mkContext (Query ctx) (Keys ctx) (Some code)
            (Errors ctx) (Aborted ctx) (DataBody contentType data).

(** The multipart reply of a data endpoint, parts in order. *)
Definition Multipart (code : Z) (parts : list bytes) (ctx : Context)
    : Context :=
  mkContext (Query ctx) (Keys ctx) (Some code)
            (Errors ctx) (Aborted ctx) (MultipartBody parts).

End gin.

(* ===================================================================== *)
(** ** Handlers as state transformers *)
(* ===================================================================== *)
Module handler.

(** What a handler does to the world outside its own variables. *)
Inductive Event : Type :=
| EvCacheGet (key : string)
| EvCacheSet (key : string) (entry : cache.CacheEntry)
| EvNewDSHandle (opened : bool)
| EvEngine (c : EngineCall)
| EvClose
| EvResponse (status : Z)
| EvAbort (status : Z).

(** The state a handler runs in: the request context, the state of the
    endpoint's cache object, and the events so far (oldest first). *)
Record World (T : Type) : Type := mkWorld {
  ctx : gin.Context;
  store : T;
  trace : list Event
}.
Arguments mkWorld {T} ctx store trace.
Arguments ctx {T} w.
Arguments store {T} w.
Arguments trace {T} w.

Definition Handler (T A : Type) : Type := World T → A * World T.

Definition ret {T A} (a : A) : Handler T A := λ w, (a, w).

Definition bind {T A B} (c : Handler T A) (k : A → Handler T B)
    : Handler T B :=
  λ w, let '(a, w') := c w in k a w'.

Definition run {T} (c : Handler T unit) (w : World T) : World T := snd (c w).

Definition emit {T} (ev : Event) : Handler T unit :=
  λ w, ((), mkWorld (ctx w) (store w) (trace w ++ [ev])).

Definition getCtx {T} : Handler T gin.Context := λ w, (ctx w, w).

Definition modifyCtx {T} (f : gin.Context → gin.Context) : Handler T unit :=
  λ w, ((), mkWorld (f (ctx w)) (store w) (trace w)).

(** [e.Cache.Get(key)] *)
Definition cacheGet {T} `{cache.Cache T} (key : string)
    : Handler T (cache.CacheEntry * bool) :=
  λ w, (cache.Get (store w) key,
        mkWorld (ctx w) (store w) (trace w ++ [EvCacheGet key])).

(** [e.Cache.Set(key, entry)] *)
Definition cacheSet {T} `{cache.Cache T} (key : string)
    (entry : cache.CacheEntry) : Handler T bool :=
  λ w, let '(store', accepted) := cache.Set_ (store w) key entry in
       (accepted, mkWorld (ctx w) store' (trace w ++ [EvCacheSet key entry])).

(** [core.NewDSHandle(conn)] *)
Definition openHandle {T C} `{HandleOpener C} (conn : C)
    : Handler T (result DSHandle) :=
  λ w, let r := NewDSHandle conn in
       (r, mkWorld (ctx w) (store w)
                   (trace w ++ [EvNewDSHandle (isOk r)])).

(** [handle.Close()] *)
Definition closeHandle {T} `{Engine} (handle : DSHandle) : Handler T unit :=
  emit EvClose.

(** Running a computation against the engine: its calls join the trace. *)
Definition runEngine {T A} (c : Eng A) : Handler T A :=
  λ w, (fst c, mkWorld (ctx w) (store w) (trace w ++ (EvEngine <$> snd c))).

(** [defer cleanup] in front of [body]: [cleanup] runs when the function
    returns, whichever return statement of [body] is taken. *)
Definition defer {T A} (cleanup : Handler T unit) (body : Handler T A)
    : Handler T A :=
  bind body (λ a, bind cleanup (λ _, ret a)).

End handler.
Export handler.

Notation "'let*' x ':=' c 'in' k" := (handler.bind c (fun x => k))
  (at level 10, x pattern, c at level 100, k at level 200, only parsing).

(* ===================================================================== *)
(** ** Package api *)
(* ===================================================================== *)
Module api.

Definition httpStatusCode (err : option error) : Z :=
  match err with
  | Some (InvalidArgument _) => http.StatusBadRequest
  | Some (InternalError _) => http.StatusInternalServerError
  | _ => http.StatusInternalServerError
  end.

Definition AbortWithError {T} (code : Z) (err : error) : Handler T unit :=
  let* _ := modifyCtx (gin.AbortWithError code err) in
  emit (EvAbort code).

(** [abortOnError(ctx, err)]: whether the context was aborted. *)
Definition abortOnError {T} (err : option error) : Handler T bool :=
  match err with
  | None => ret false
  | Some e =>
      let* _ := AbortWithError (httpStatusCode err) e in
      ret true
  end.

(** The idiom of every handler,
    [x, err := f(); if abortOnError(ctx, err) { return }; ...]. *)
Definition orReturn {T A} (r : result A) (k : A → Handler T unit)
    : Handler T unit :=
  let* aborted := abortOnError (err_of r) in
  if aborted then ret ()
  else match r with
       | Ok a => k a
       | Err _ => ret ()
       end.

(** The endpoint: its connection maker; the state of its [Cache] field is
    the [store] of the world. *)
Record Endpoint (C : Type) : Type := mkEndpoint {
  MakeVdsConnection : ConnectionMaker C
}.
Arguments MakeVdsConnection {C} e.

(** The request interfaces; their methods are defined outside src. *)
Class Stringable (R : Type) : Type := {
  toString : R → string * option error
}.

Class Normalizable (R : Type) : Type := {
  NormalizeConnection : R → result R
}.

Class DataRequest `{Engine} (R : Type) : Type := {
  DataRequest_Stringable :: Stringable R;
  credentials : R → string * string;
  hash : R → result string;
  (* returns [(data, metadata)] or the error *)
  execute : R → DSHandle → Eng (result (list bytes * bytes))
}.

(** Modelled from the spec: [writeResponse] is defined outside src.
    Section 4.5: a data-bearing reply is the ordered sequence of the
    metadata document and the data blocks; section 6: status 200. *)
Definition writeResponse {T} (metadata : bytes) (data : list bytes)
    : Handler T unit :=
  let* _ := modifyCtx (gin.Multipart http.StatusOK (metadata :: data)) in
  emit (EvResponse http.StatusOK).

Definition prepareRequestLogging {T R} `{Stringable R} (request : R)
    : Handler T unit :=
  let '(requestString, _) := toString request in
  modifyCtx (gin.Set_ "request" (gin.VString requestString)).

(** The request structs are declared outside src; their fields are the
    ones the handlers and the [execute] methods read.  These are the fields
    every request embeds. *)
Record RequestedResource : Type := mkRequestedResource {
  Vds : string;
  Sas : string
}.

Record MetadataRequest : Type := mkMetadataRequest {
  MetadataResource : RequestedResource
}.

Notation "'try!' x ':=' r 'in' k" := (orReturn r (fun x => k))
  (at level 10, x pattern, r at level 100, k at level 200, only parsing).

(** Modelled from the spec: [cache.Hash], the digest of a value's
    canonical serialization (section 3, CacheKey), is outside src. *)
Class Hasher (A : Type) : Type := {
  Hash : A → result string
}.

(* --------------------------------------------------------------------- *)
(** *** Slice *)
Module SliceRequest.

Record t `{Engine} : Type := mk {
  Resource : RequestedResource;
  Direction : string;
  Lineno : Z;                 (* [*int], required by the binding *)
  Bounds : list Bound
}.
Arguments mk {_} Resource Direction Lineno Bounds.

Definition execute `{Engine} `{!strings.Unicode}
    (request : t) (handle : DSHandle)
    : Eng (result (list bytes * bytes)) :=
  check axis := GetAxis (strings.ToLower (Direction request)) in
  let+ gotMetadata :=
    call CallGetSliceMetadata
         (GetSliceMetadata handle (Lineno request) axis (Bounds request)) in
  check metadata := gotMetadata in
  let+ gotSlice :=
    call CallGetSlice
         (GetSlice handle (Lineno request) axis (Bounds request)) in
  check res := gotSlice in
  let data := [res] in
  eng_ret (Ok (data, metadata)).

End SliceRequest.

(* --------------------------------------------------------------------- *)
(** *** Fence *)
Module FenceRequest.

Record t : Type := mk {
  Resource : RequestedResource;
  CoordinateSystem : string;
  Coordinates : list (list float32);
  Interpolation : string;
  FillValue : option float32
}.

Definition execute `{Engine} `{!strings.Unicode}
    (request : t) (handle : DSHandle)
    : Eng (result (list bytes * bytes)) :=
  check coordinateSystem :=
    GetCoordinateSystem (strings.ToLower (CoordinateSystem request)) in
  check interpolation := GetInterpolationMethod (Interpolation request) in
  let+ gotMetadata :=
    call CallGetFenceMetadata
         (GetFenceMetadata handle (Coordinates request)) in
  check metadata := gotMetadata in
  let+ gotFence :=
    call CallGetFence
         (GetFence handle coordinateSystem (Coordinates request)
                   interpolation (FillValue request)) in
  check res := gotFence in
  let data := [res] in
  eng_ret (Ok (data, metadata)).

End FenceRequest.

(* --------------------------------------------------------------------- *)
(** *** Attributes along a surface *)
Definition lowerBound : Z := 0.
Definition upperBound : Z := 250.

Definition validateVerticalWindow (above below stepSize : float32)
    : option error :=
  if SFltb above (float32_const lowerBound)
     || SFleb (float32_const upperBound) above
  then Some (NewInvalidArgument
               ("'above' out of range! Must be within ["
                +:+ fmt.verb_d lowerBound +:+ ", " +:+ fmt.verb_d upperBound
                +:+ "], was " +:+ fmt.verb_f above))
  else if SFltb below (float32_const lowerBound)
          || SFleb (float32_const upperBound) below
  then Some (NewInvalidArgument
               ("'below' out of range! Must be within ["
                +:+ fmt.verb_d lowerBound +:+ ", " +:+ fmt.verb_d upperBound
                +:+ "], was " +:+ fmt.verb_f below))
  else if SFltb stepSize (float32_const lowerBound)
  then Some (NewInvalidArgument
               ("'stepsize' out of range! Must be bigger than "
                +:+ fmt.verb_d lowerBound
                +:+ ", was " +:+ fmt.verb_f stepSize))
  else None.

Module AttributeAlongSurfaceRequest.

Record t `{Engine} : Type := mk {
  Resource : RequestedResource;
  Surface : RegularSurface;
  Above : float32;
  Below : float32;
  Stepsize : float32;
  Attributes : list string;
  Interpolation : string
}.
Arguments mk {_} Resource Surface Above Below Stepsize Attributes Interpolation.

Definition execute `{Engine} (request : t) (handle : DSHandle)
    : Eng (result (list bytes * bytes)) :=
  match validateVerticalWindow
          (Above request) (Below request) (Stepsize request) with
  | Some err => eng_ret (Err err)
  | None =>
      check interpolation := GetInterpolationMethod (Interpolation request) in
      let+ gotMetadata :=
        call CallGetAttributeMetadata
             (GetAttributeMetadata handle (Values (Surface request))) in
      check metadata := gotMetadata in
      let+ gotData :=
        call CallGetAttributesAlongSurface
             (GetAttributesAlongSurface handle
                (Surface request) (Above request) (Below request)
                (Stepsize request) (Attributes request) interpolation) in
      check data := gotData in
      eng_ret (Ok (data, metadata))
  end.

End AttributeAlongSurfaceRequest.

(* --------------------------------------------------------------------- *)
(** *** Attributes between two surfaces *)
Module AttributeBetweenSurfacesRequest.

Record t `{Engine} : Type := mk {
  Resource : RequestedResource;
  PrimarySurface : RegularSurface;
  SecondarySurface : RegularSurface;
  Stepsize : float32;
  Attributes : list string;
  Interpolation : string
}.
Arguments mk {_} Resource PrimarySurface SecondarySurface Stepsize
  Attributes Interpolation.

Definition execute `{Engine} (request : t) (handle : DSHandle)
    : Eng (result (list bytes * bytes)) :=
  check interpolation := GetInterpolationMethod (Interpolation request) in
  let+ gotMetadata :=
    call CallGetAttributeMetadata
         (GetAttributeMetadata handle (Values (PrimarySurface request))) in
  check metadata := gotMetadata in
  let+ gotData :=
    call CallGetAttributesBetweenSurfaces
         (GetAttributesBetweenSurfaces handle
            (PrimarySurface request) (SecondarySurface request)
            (Stepsize request) (Attributes request) interpolation) in
  check data := gotData in
  eng_ret (Ok (data, metadata)).

End AttributeBetweenSurfacesRequest.

(* --------------------------------------------------------------------- *)
(** *** Credentials and fingerprints of the variants *)

(** Modelled from the spec: the [credentials] and [hash] methods of the
    request types are defined outside src.  Section 3: the common fields
    are the dataset locator and the credential token; the cache key is the
    digest of the credential-stripped serialization of the request. *)
Definition resourceCredentials (r : RequestedResource) : string * string :=
  (Vds r, Sas r).

(** Modelled from the spec: the credential-stripped form of the common
    fields (section 3, CacheKey), outside src. *)
Definition stripSas (r : RequestedResource) : RequestedResource :=
  mkRequestedResource (Vds r) "".

Section Fingerprints.
Context `{Engine} `{!strings.Unicode}.

(** Modelled from the spec: the credential-stripped form of each variant,
    outside src; every field but the SAS token is kept. *)
Definition SliceRequest_strip (r : SliceRequest.t) : SliceRequest.t :=
  SliceRequest.mk (stripSas (SliceRequest.Resource r))
    (SliceRequest.Direction r) (SliceRequest.Lineno r) (SliceRequest.Bounds r).

Definition FenceRequest_strip (r : FenceRequest.t) : FenceRequest.t :=
  FenceRequest.mk (stripSas (FenceRequest.Resource r))
    (FenceRequest.CoordinateSystem r) (FenceRequest.Coordinates r)
    (FenceRequest.Interpolation r) (FenceRequest.FillValue r).

Definition AttributeAlongSurfaceRequest_strip
    (r : AttributeAlongSurfaceRequest.t) : AttributeAlongSurfaceRequest.t :=
  AttributeAlongSurfaceRequest.mk
    (stripSas (AttributeAlongSurfaceRequest.Resource r))
    (AttributeAlongSurfaceRequest.Surface r)
    (AttributeAlongSurfaceRequest.Above r)
    (AttributeAlongSurfaceRequest.Below r)
    (AttributeAlongSurfaceRequest.Stepsize r)
    (AttributeAlongSurfaceRequest.Attributes r)
    (AttributeAlongSurfaceRequest.Interpolation r).

Definition AttributeBetweenSurfacesRequest_strip
    (r : AttributeBetweenSurfacesRequest.t)
    : AttributeBetweenSurfacesRequest.t :=
  AttributeBetweenSurfacesRequest.mk
    (stripSas (AttributeBetweenSurfacesRequest.Resource r))
    (AttributeBetweenSurfacesRequest.PrimarySurface r)
    (AttributeBetweenSurfacesRequest.SecondarySurface r)
    (AttributeBetweenSurfacesRequest.Stepsize r)
    (AttributeBetweenSurfacesRequest.Attributes r)
    (AttributeBetweenSurfacesRequest.Interpolation r).

(** Modelled from the spec: the [credentials] and [hash] methods of the
    four variants, outside src; [execute] is the method of the source. *)
#[export] Instance SliceRequest_DataRequest
    `{!Stringable SliceRequest.t} `{!Hasher SliceRequest.t}
    : DataRequest SliceRequest.t := {|
  credentials r := resourceCredentials (SliceRequest.Resource r);
  hash r := Hash (SliceRequest_strip r);
  execute := SliceRequest.execute
|}.

#[export] Instance FenceRequest_DataRequest
    `{!Stringable FenceRequest.t} `{!Hasher FenceRequest.t}
    : DataRequest FenceRequest.t := {|
  credentials r := resourceCredentials (FenceRequest.Resource r);
  hash r := Hash (FenceRequest_strip r);
  execute := FenceRequest.execute
|}.

#[export] Instance AttributeAlongSurfaceRequest_DataRequest
    `{!Stringable AttributeAlongSurfaceRequest.t}
    `{!Hasher AttributeAlongSurfaceRequest.t}
    : DataRequest AttributeAlongSurfaceRequest.t := {|
  credentials r :=
    resourceCredentials (AttributeAlongSurfaceRequest.Resource r);
  hash r := Hash (AttributeAlongSurfaceRequest_strip r);
  execute := AttributeAlongSurfaceRequest.execute
|}.

#[export] Instance AttributeBetweenSurfacesRequest_DataRequest
    `{!Stringable AttributeBetweenSurfacesRequest.t}
    `{!Hasher AttributeBetweenSurfacesRequest.t}
    : DataRequest AttributeBetweenSurfacesRequest.t := {|
  credentials r :=
    resourceCredentials (AttributeBetweenSurfacesRequest.Resource r);
  hash r := Hash (AttributeBetweenSurfacesRequest_strip r);
  execute := AttributeBetweenSurfacesRequest.execute
|}.

End Fingerprints.

(* --------------------------------------------------------------------- *)
(** *** Parsing *)

(** [encoding/json] and gin's binding, as parameters.  The decoders fill
    the fresh request variable the endpoint passes by reference; here they
    return it. *)
Class Binding (V : Type) : Type := {
  Unmarshal : string → result V;          (* json.Unmarshal([]byte(query), v) *)
  ValidateStruct : V → option error;      (* binding.Validator.ValidateStruct(v) *)
  ShouldBind : gin.Context → result V     (* ctx.ShouldBind(v) *)
}.

Definition missingQueryMessage : string :=
  "GET request to specified endpoint requires a 'query' parameter".

Definition invalidQueryMessage : string :=
  "Please ensure that the supplied query is valid "
  +:+ "and conforms to the expected swagger Request specification: ".

Definition parseGetRequest {V : Type} `{!Binding V} `{!Normalizable V}
    (ctx : gin.Context) : result V :=
  let '(query, status) := gin.GetQuery ctx "query" in
  if negb status then
    Err (NewInvalidArgument missingQueryMessage)
  else
    match Unmarshal query with
    | Err err =>
        Err (NewInvalidArgument (invalidQueryMessage +:+ Error err))
    | Ok v =>
        match ValidateStruct v with
        | Some err => Err (NewInvalidArgument (Error err))
        | None => NormalizeConnection v
        end
    end.

Definition parsePostRequest {V : Type} `{!Binding V} `{!Normalizable V}
    (ctx : gin.Context) : result V :=
  match ShouldBind ctx with
  | Err err => Err (NewInvalidArgument (Error err))
  | Ok v => NormalizeConnection v
  end.

(* --------------------------------------------------------------------- *)
(** *** The two handlers *)
Section Handlers.
Context {T : Type} `{!cache.Cache T}.
Context {C : Type} `{!Connection C}.
Context `{Engine} `{!HandleOpener C}.

Definition metadata `{!Stringable MetadataRequest}
    (e : Endpoint C) (request : MetadataRequest) : Handler T unit :=
  let* _ := prepareRequestLogging request in
  try! conn := MakeVdsConnection e (Vds (MetadataResource request))
                                   (Sas (MetadataResource request)) in
  let* opened := openHandle conn in
  try! handle := opened in
  defer (closeHandle handle) (
    let* got := runEngine (call CallGetMetadata (GetMetadata handle)) in
    try! buffer := got in
    let* _ := modifyCtx (gin.Data http.StatusOK "application/json" buffer) in
    emit (EvResponse http.StatusOK)).

Definition makeDataRequest {R : Type} `{!DataRequest R}
    (e : Endpoint C) (request : R) : Handler T unit :=
  let* _ := prepareRequestLogging request in
  let '(path, sas) := credentials request in
  try! conn := MakeVdsConnection e path sas in
  try! cacheKey := hash request in
  let* (cacheEntry, hit) := cacheGet cacheKey in
  if hit && IsAuthorizedToRead conn then
    let* _ := modifyCtx (gin.Set_ "cache-hit" (gin.VBool true)) in
    writeResponse (cache.Metadata cacheEntry) (cache.Data cacheEntry)
  else
    let* opened := openHandle conn in
    try! handle := opened in
    defer (closeHandle handle) (
      let* executed := runEngine (execute request handle) in
      try! (data, metadata) := executed in
      let* _ := cacheSet cacheKey (cache.NewCacheEntry data metadata) in
      writeResponse metadata data).

(* --------------------------------------------------------------------- *)
(** *** The endpoints *)

Definition MetadataGet `{!Binding MetadataRequest}
    `{!Normalizable MetadataRequest} `{!Stringable MetadataRequest}
    (e : Endpoint C) : Handler T unit :=
  let* c := getCtx in
  try! request := parseGetRequest c in
  metadata e request.

Definition MetadataPost `{!Binding MetadataRequest}
    `{!Normalizable MetadataRequest} `{!Stringable MetadataRequest}
    (e : Endpoint C) : Handler T unit :=
  let* c := getCtx in
  try! request := parsePostRequest c in
  metadata e request.

Definition SliceGet `{!Binding SliceRequest.t}
    `{!Normalizable SliceRequest.t} `{!DataRequest SliceRequest.t}
    (e : Endpoint C) : Handler T unit :=
  let* c := getCtx in
  try! request := parseGetRequest c in
  makeDataRequest e (request : SliceRequest.t).

Definition SlicePost `{!Binding SliceRequest.t}
    `{!Normalizable SliceRequest.t} `{!DataRequest SliceRequest.t}
    (e : Endpoint C) : Handler T unit :=
  let* c := getCtx in
  try! request := parsePostRequest c in
  makeDataRequest e (request : SliceRequest.t).

Definition FenceGet `{!Binding FenceRequest.t}
    `{!Normalizable FenceRequest.t} `{!DataRequest FenceRequest.t}
    (e : Endpoint C) : Handler T unit :=
  let* c := getCtx in
  try! request := parseGetRequest c in
  makeDataRequest e (request : FenceRequest.t).

Definition FencePost `{!Binding FenceRequest.t}
    `{!Normalizable FenceRequest.t} `{!DataRequest FenceRequest.t}
    (e : Endpoint C) : Handler T unit :=
  let* c := getCtx in
  try! request := parsePostRequest c in
  makeDataRequest e (request : FenceRequest.t).

Definition AttributesAlongSurfacePost
    `{!Binding AttributeAlongSurfaceRequest.t}
    `{!Normalizable AttributeAlongSurfaceRequest.t}
    `{!DataRequest AttributeAlongSurfaceRequest.t}
    (e : Endpoint C) : Handler T unit :=
  let* c := getCtx in
  try! request := parsePostRequest c in
  makeDataRequest e (request : AttributeAlongSurfaceRequest.t).

Definition AttributesBetweenSurfacesPost
    `{!Binding AttributeBetweenSurfacesRequest.t}
    `{!Normalizable AttributeBetweenSurfacesRequest.t}
    `{!DataRequest AttributeBetweenSurfacesRequest.t}
    (e : Endpoint C) : Handler T unit :=
  let* c := getCtx in
  try! request := parsePostRequest c in
  makeDataRequest e (request : AttributeBetweenSurfacesRequest.t).

End Handlers.

End api.

(* ===================================================================== *)
(** ** A small deployment, for closed examples *)
(* ===================================================================== *)
Module sample.
Import api.

(** The parameters are instantiated with the simplest thing of the right
    type: every token decodes, and a handle answers every call with a
    fixed document or block. *)
#[export] Instance engine : Engine := {|
  Bound := unit;
  RegularSurface := list (list float32);
  Values surface := surface;
  CoordinateSystem := string;
  InterpolationMethod := string;
  GetCoordinateSystem token := Ok token;
  GetInterpolationMethod token := Ok token
|}.

(** The tokens of the examples are ASCII, so the Unicode path of
    [strings.ToLower] is never taken; it is given the identity. *)
#[export] Instance unicode : strings.Unicode := {|
  strings.MapToLower text := text
|}.

Record conn : Type := mkConn {
  datasetPath : string;
  token : string
}.

#[export] Instance conn_Connection : Connection conn := {|
  IsAuthorizedToRead c := String.eqb (token c) "valid"
|}.

Definition handle : DSHandle := {|
  GetMetadata := Ok [Byte.x01];
  GetSliceMetadata _ _ _ := Ok [Byte.x02];
  GetSlice lineno _ _ :=
    if (lineno <? 3)%Z then Ok [Byte.x03]
    else Err (InternalError "Invalid lineno");
  GetFenceMetadata _ := Ok [Byte.x04];
  GetFence _ _ _ _ := Ok [Byte.x05];
  GetAttributeMetadata _ := Ok [Byte.x06];
  GetAttributesAlongSurface _ _ _ _ attributes _ :=
    Ok ((λ _, [Byte.x07]) <$> attributes);
  GetAttributesBetweenSurfaces _ _ _ attributes _ :=
    Ok ((λ _, [Byte.x08]) <$> attributes)
|}.

#[export] Instance opener : HandleOpener conn := {|
  NewDSHandle c :=
    if String.eqb (datasetPath c) "well_known" && String.eqb (token c) "valid"
    then Ok handle
    else Err (InternalError "Could not open VDS")
|}.

Definition endpoint : Endpoint conn :=
  mkEndpoint conn (λ path sas, Ok (mkConn path sas)).

#[export] Instance slice_Stringable : Stringable SliceRequest.t := {|
  toString r := (SliceRequest.Direction r, None)
|}.

(** A stand-in digest: the fields of the value it is given, joined. *)
Definition showResource (r : RequestedResource) : string :=
  Vds r +:+ "|" +:+ Sas r.

#[export] Instance slice_Hasher : Hasher SliceRequest.t := {|
  Hash r := Ok (showResource (SliceRequest.Resource r) +:+ "|"
                +:+ SliceRequest.Direction r +:+ "|"
                +:+ pretty (SliceRequest.Lineno r))
|}.

#[export] Instance fence_Hasher : Hasher FenceRequest.t := {|
  Hash r := Ok (showResource (FenceRequest.Resource r) +:+ "|"
                +:+ FenceRequest.CoordinateSystem r +:+ "|"
                +:+ FenceRequest.Interpolation r)
|}.

#[export] Instance along_Hasher : Hasher AttributeAlongSurfaceRequest.t := {|
  Hash r := Ok (showResource (AttributeAlongSurfaceRequest.Resource r) +:+ "|"
                +:+ fmt.verb_f (AttributeAlongSurfaceRequest.Above r) +:+ "|"
                +:+ fmt.verb_f (AttributeAlongSurfaceRequest.Below r) +:+ "|"
                +:+ fmt.verb_f (AttributeAlongSurfaceRequest.Stepsize r))
|}.

#[export] Instance between_Hasher
    : Hasher AttributeBetweenSurfacesRequest.t := {|
  Hash r := Ok (showResource (AttributeBetweenSurfacesRequest.Resource r)
                +:+ "|"
                +:+ fmt.verb_f (AttributeBetweenSurfacesRequest.Stepsize r))
|}.

#[export] Instance fence_Stringable : Stringable FenceRequest.t := {|
  toString r := (FenceRequest.CoordinateSystem r, None)
|}.

#[export] Instance along_Stringable
    : Stringable AttributeAlongSurfaceRequest.t := {|
  toString r := (AttributeAlongSurfaceRequest.Interpolation r, None)
|}.

#[export] Instance between_Stringable
    : Stringable AttributeBetweenSurfacesRequest.t := {|
  toString r := (AttributeBetweenSurfacesRequest.Interpolation r, None)
|}.

#[export] Instance metadata_Stringable : Stringable MetadataRequest := {|
  toString r := (Vds (MetadataResource r), None)
|}.

(** A decoder that accepts any text starting with an opening brace. *)
#[export] Instance metadata_Binding : Binding MetadataRequest := {|
  Unmarshal text :=
    if String.prefix "{" text
    then Ok (mkMetadataRequest (mkRequestedResource "well_known" "valid"))
    else Err (OtherError
                "invalid character 'h' looking for beginning of value");
  ValidateStruct _ := None;
  ShouldBind _ := Ok (mkMetadataRequest (mkRequestedResource "well_known" "valid"))
|}.

#[export] Instance metadata_Normalizable : Normalizable MetadataRequest := {|
  NormalizeConnection r := Ok r
|}.

Definition sliceRequest (sas direction : string) (lineno : Z)
    : SliceRequest.t :=
  SliceRequest.mk (mkRequestedResource "well_known" sas) direction lineno [].

Definition alongRequest (above below stepsize : Z)
    : AttributeAlongSurfaceRequest.t :=
  AttributeAlongSurfaceRequest.mk
    (mkRequestedResource "well_known" "valid") [[float32_const 20]]
    (float32_const above) (float32_const below) (float32_const stepsize)
    ["samplevalue"] "".

(** An entry computed earlier for the inline slice 0, and a cache that
    holds it under the key of that request. *)
Definition cachedEntry : cache.CacheEntry :=
  cache.NewCacheEntry [[Byte.x09]] [Byte.x0a].

Definition warm : gmap string cache.CacheEntry :=
  {[ "well_known||i|0" := cachedEntry ]}.

Definition world (m : gmap string cache.CacheEntry)
    : World (gmap string cache.CacheEntry) :=
  mkWorld (gin.empty ∅) m [].

Definition serveSlice (r : SliceRequest.t)
    : Handler (gmap string cache.CacheEntry) unit :=
  makeDataRequest endpoint r.

Definition serveMetadata (r : MetadataRequest)
    : Handler (gmap string cache.CacheEntry) unit :=
  metadata endpoint r.

Definition parseMetadataGet (c : gin.Context) : result MetadataRequest :=
  parseGetRequest c.

End sample.

(* ===================================================================== *)
(** ** Vocabulary of the properties *)
(* ===================================================================== *)
Module vocabulary.
Import api.

(** The context after [prepareRequestLogging]. *)
Definition logged {R} `{!Stringable R} (request : R) (c : gin.Context)
    : gin.Context :=
  gin.Set_ "request" (gin.VString (toString request).1) c.

(** The context after [abortOnError] on a non-nil error. *)
Definition aborted (err : error) (c : gin.Context) : gin.Context :=
  gin.AbortWithError (httpStatusCode (Some err)) err c.

Definition isInvalidArgument (e : error) : bool :=
  match e with InvalidArgument _ => true | _ => false end.

Definition isInternalError (e : error) : bool :=
  match e with InternalError _ => true | _ => false end.

Definition isCacheSet (ev : Event) : bool :=
  match ev with EvCacheSet _ _ => true | _ => false end.

Definition isCacheAccess (ev : Event) : bool :=
  match ev with EvCacheGet _ | EvCacheSet _ _ => true | _ => false end.

Definition isOpen (ev : Event) : bool :=
  match ev with EvNewDSHandle true => true | _ => false end.

Definition isClose (ev : Event) : bool :=
  match ev with EvClose => true | _ => false end.

Definition isEngine (ev : Event) : bool :=
  match ev with EvEngine _ => true | _ => false end.

(** Events that need an open handle, or open or close one. *)
Definition usesHandle (ev : Event) : bool :=
  isOpen ev || isClose ev || isEngine ev.

(** [e.MakeVdsConnection(request.credentials())] *)
Definition connect {C R} `{Engine} `{!DataRequest R}
    (e : Endpoint C) (request : R) : result C :=
  MakeVdsConnection e (credentials request).1 (credentials request).2.

(** A data request fails: at connection creation, at fingerprinting, at
    opening the handle, or in the variant's [execute]. *)
Definition stageFailure {T C R} `{!cache.Cache T} `{!Connection C}
    `{Engine} `{!HandleOpener C} `{!DataRequest R}
    (e : Endpoint C) (request : R) (w : World T) : Prop :=
  match connect e request with
  | Err _ => True
  | Ok conn =>
      match hash request with
      | Err _ => True
      | Ok key =>
          if (cache.Get (store w) key).2 && IsAuthorizedToRead conn then False
          else match NewDSHandle conn with
               | Err _ => True
               | Ok handle => isOk (execute request handle).1 = false
               end
      end
  end.

(** The world after a reply served from the cache. *)
Definition servedFromCache {T R} `{!Stringable R} (request : R)
    (key : string) (entry : cache.CacheEntry) (w : World T) : World T :=
  mkWorld
    (gin.Multipart http.StatusOK (cache.Metadata entry :: cache.Data entry)
       (gin.Set_ "cache-hit" (gin.VBool true) (logged request (ctx w))))
    (store w)
    (trace w ++ [EvCacheGet key; EvResponse http.StatusOK]).

(** The handle is held at most once, and what is opened is closed: either
    no event touches a handle, or the events are
    [pre], open, [mid], close, where nothing in [pre] touches a handle and
    nothing in [mid] opens or closes one. *)
Definition handleScoped (evs : list Event) : Prop :=
  Forall (λ ev, usesHandle ev = false) evs
  ∨ ∃ pre mid,
      evs = pre ++ [EvNewDSHandle true] ++ mid ++ [EvClose]
      ∧ Forall (λ ev, usesHandle ev = false) pre
      ∧ Forall (λ ev, isOpen ev = false ∧ isClose ev = false) mid.

(** The rational a finite [float32] stands for. *)
Definition float32_to_Q (x : float32) : Q :=
  match x with
  | S754_finite s m e =>
      let magnitude :=
        if (0 <=? e)%Z then inject_Z (Z.pos m * 2 ^ e)
        else Z.pos m # (2 ^ Z.to_pos (- e))%positive in
      if s then Qopp magnitude else magnitude
  | _ => 0%Q
  end.

(** What a JSON number decodes to: a finite value of the format. *)
Definition finite32 (x : float32) : bool :=
  is_float32 x
  && match x with
     | S754_zero _ | S754_finite _ _ _ => true
     | _ => false
     end.

(** [0 <= x < 250] *)
Definition inWindow (x : float32) : Prop :=
  (0 <= float32_to_Q x)%Q ∧ (float32_to_Q x < 250)%Q.

(** Two bytes that are the same letter up to ASCII case. *)
Definition upperCase (a : ascii) : Prop :=
  (65 ≤ N_of_ascii a ∧ N_of_ascii a ≤ 90)%N.

Definition sameLetter (a b : ascii) : Prop :=
  a = b
  ∨ (upperCase a ∧ N_of_ascii b = N_of_ascii a + 32)%N
  ∨ (upperCase b ∧ N_of_ascii a = N_of_ascii b + 32)%N.

(** Two strings that differ at most in the casing of their letters. *)
Fixpoint caseVariant (s1 s2 : string) : Prop :=
  match s1, s2 with
  | EmptyString, EmptyString => True
  | String a rest1, String b rest2 => sameLetter a b ∧ caseVariant rest1 rest2
  | _, _ => False
  end.

(** The data requests as one type, with their fingerprint. *)
Inductive AnyRequest `{Engine} : Type :=
| SliceR (r : SliceRequest.t)
| FenceR (r : FenceRequest.t)
| AlongR (r : AttributeAlongSurfaceRequest.t)
| BetweenR (r : AttributeBetweenSurfacesRequest.t).

Definition fingerprint `{Engine}
    `{!DataRequest SliceRequest.t} `{!DataRequest FenceRequest.t}
    `{!DataRequest AttributeAlongSurfaceRequest.t}
    `{!DataRequest AttributeBetweenSurfacesRequest.t}
    (r : AnyRequest) : result string :=
  match r with
  | SliceR r => hash r
  | FenceR r => hash r
  | AlongR r => hash r
  | BetweenR r => hash r
  end.

(** Same variant, and every field but the SAS token equal. *)
Definition differOnlyInCredentials `{Engine} (r1 r2 : AnyRequest) : Prop :=
  match r1, r2 with
  | SliceR a, SliceR b =>
      Vds (SliceRequest.Resource a) = Vds (SliceRequest.Resource b)
      ∧ SliceRequest.Direction a = SliceRequest.Direction b
      ∧ SliceRequest.Lineno a = SliceRequest.Lineno b
      ∧ SliceRequest.Bounds a = SliceRequest.Bounds b
  | FenceR a, FenceR b =>
      Vds (FenceRequest.Resource a) = Vds (FenceRequest.Resource b)
      ∧ FenceRequest.CoordinateSystem a = FenceRequest.CoordinateSystem b
      ∧ FenceRequest.Coordinates a = FenceRequest.Coordinates b
      ∧ FenceRequest.Interpolation a = FenceRequest.Interpolation b
      ∧ FenceRequest.FillValue a = FenceRequest.FillValue b
  | AlongR a, AlongR b =>
      Vds (AttributeAlongSurfaceRequest.Resource a)
      = Vds (AttributeAlongSurfaceRequest.Resource b)
      ∧ AttributeAlongSurfaceRequest.Surface a
        = AttributeAlongSurfaceRequest.Surface b
      ∧ AttributeAlongSurfaceRequest.Above a
        = AttributeAlongSurfaceRequest.Above b
      ∧ AttributeAlongSurfaceRequest.Below a
        = AttributeAlongSurfaceRequest.Below b
      ∧ AttributeAlongSurfaceRequest.Stepsize a
        = AttributeAlongSurfaceRequest.Stepsize b
      ∧ AttributeAlongSurfaceRequest.Attributes a
        = AttributeAlongSurfaceRequest.Attributes b
      ∧ AttributeAlongSurfaceRequest.Interpolation a
        = AttributeAlongSurfaceRequest.Interpolation b
  | BetweenR a, BetweenR b =>
      Vds (AttributeBetweenSurfacesRequest.Resource a)
      = Vds (AttributeBetweenSurfacesRequest.Resource b)
      ∧ AttributeBetweenSurfacesRequest.PrimarySurface a
        = AttributeBetweenSurfacesRequest.PrimarySurface b
      ∧ AttributeBetweenSurfacesRequest.SecondarySurface a
        = AttributeBetweenSurfacesRequest.SecondarySurface b
      ∧ AttributeBetweenSurfacesRequest.Stepsize a
        = AttributeBetweenSurfacesRequest.Stepsize b
      ∧ AttributeBetweenSurfacesRequest.Attributes a
        = AttributeBetweenSurfacesRequest.Attributes b
      ∧ AttributeBetweenSurfacesRequest.Interpolation a
        = AttributeBetweenSurfacesRequest.Interpolation b
  | _, _ => False
  end.

End vocabulary.
Import vocabulary.

(* ===================================================================== *)
(** ** Package metrics: what it reads from the context *)
(* ===================================================================== *)
Module metrics.
Import api.

(** [ctx.GetBool(key)], with which the middleware reads the "cache-hit"
    flag a handler leaves: the value under the key when it is a bool,
    false when the key is missing or holds something else.  The middleware
    itself records a request in a goroutine that reads the context after
    the handler has returned, when gin may have handed the context to the
    next request; that recording is not part of this development. *)
Definition GetBool (c : gin.Context) (key : string) : bool :=
  match gin.Keys c !! key with
  | Some (gin.VBool b) => b
  | _ => false
  end.

End metrics.

(* ===================================================================== *)
(** ** More vocabulary: outcomes of a handler *)
(* ===================================================================== *)
Module outcomes.
Import api.

(** What a handler answered with. *)
Inductive Outcome : Type :=
| Replied (status : Z)
| AbortedWith (status : Z).

Definition outcomeOf (ev : Event) : option Outcome :=
  match ev with
  | EvResponse status => Some (Replied status)
  | EvAbort status => Some (AbortedWith status)
  | _ => None
  end.

(** The answers among some events, in order. *)
Definition outcomesOf (evs : list Event) : list Outcome := omap outcomeOf evs.

(** An endpoint parses the request and, when that fails, aborts without
    another effect; when it succeeds the handler runs on the request. *)
Definition parsesThenHandles {T V} (parse : gin.Context → result V)
    (handle : V → Handler T unit) (endpoint : Handler T unit) : Prop :=
  ∀ w : World T,
    run endpoint w
    = match parse (ctx w) with
      | Err err =>
          mkWorld (aborted err (ctx w)) (store w)
                  (trace w ++ [EvAbort (httpStatusCode (Some err))])
      | Ok request => run (handle request) w
      end.

(** A data request is served from the cache: the connection is made, the
    request fingerprinted, the key found and the connection authorized. *)
Definition servesFromCache {T C R} `{!cache.Cache T} `{!Connection C}
    `{Engine} `{!DataRequest R}
    (e : Endpoint C) (request : R) (w : World T) : bool :=
  match connect e request, hash request with
  | Ok conn, Ok key =>
      (cache.Get (store w) key).2 && IsAuthorizedToRead conn
  | _, _ => false
  end.

(** The error of the first stage of a data request that fails, if one
    does: connection, fingerprint, then, unless the reply is served from
    the cache, the handle and the variant's [execute]. *)
Definition stageError {T C R} `{!cache.Cache T} `{!Connection C}
    `{Engine} `{!HandleOpener C} `{!DataRequest R}
    (e : Endpoint C) (request : R) (w : World T) : option error :=
  match connect e request with
  | Err err => Some err
  | Ok conn =>
      match hash request with
      | Err err => Some err
      | Ok key =>
          if (cache.Get (store w) key).2 && IsAuthorizedToRead conn then None
          else match NewDSHandle conn with
               | Err err => Some err
               | Ok handle => err_of (execute request handle).1
               end
      end
  end.





End outcomes.
Import outcomes.

(* ===================================================================== *)
(** ** More of the sample deployment *)
(* ===================================================================== *)
Module sample_requests.
Import api.
Import sample.

Definition fenceRequest (coordinateSystem interpolation : string)
    : FenceRequest.t :=
  FenceRequest.mk (mkRequestedResource "well_known" "valid")
    coordinateSystem [[float32_const 1; float32_const 2]] interpolation None.

Definition betweenRequest (stepsize : Z)
    : AttributeBetweenSurfacesRequest.t :=
  AttributeBetweenSurfacesRequest.mk
    (mkRequestedResource "well_known" "valid")
    [[float32_const 20]] [[float32_const 30]]
    (float32_const stepsize) ["samplevalue"] "".

(** A decoder for slice requests that accepts any text starting with an
    opening brace, and a binding that reads the body the same way. *)
#[export] Instance slice_Binding : Binding SliceRequest.t := {|
  Unmarshal text :=
    if String.prefix "{" text
    then Ok (sample.sliceRequest "valid" "i" 0)
    else Err (OtherError
                "invalid character 'h' looking for beginning of value");
  ValidateStruct r :=
    if String.eqb (SliceRequest.Direction r) ""
    then Some (OtherError "Error:Field validation for 'Direction'")
    else None;
  ShouldBind _ := Err (OtherError "EOF")
|}.

#[export] Instance slice_Normalizable : Normalizable SliceRequest.t := {|
  NormalizeConnection r := Ok r
|}.

#[export] Instance fence_Binding : Binding FenceRequest.t := {|
  Unmarshal text :=
    if String.prefix "{" text
    then Ok (fenceRequest "cdp" "")
    else Err (OtherError
                "invalid character 'h' looking for beginning of value");
  ValidateStruct _ := None;
  ShouldBind _ := Err (OtherError "EOF")
|}.

#[export] Instance fence_Normalizable : Normalizable FenceRequest.t := {|
  NormalizeConnection r := Ok r
|}.

Definition metadataGet : Handler (gmap string cache.CacheEntry) unit :=
  MetadataGet sample.endpoint.

Definition sliceGet : Handler (gmap string cache.CacheEntry) unit :=
  SliceGet sample.endpoint.

Definition fenceGet : Handler (gmap string cache.CacheEntry) unit :=
  FenceGet sample.endpoint.

End sample_requests.

(* ===================================================================== *)
(** ** Error classification *)
(* ===================================================================== *)
Import api.

Ltac unfold_handler :=
  unfold run, makeDataRequest, metadata, orReturn, abortOnError,
    AbortWithError, writeResponse, prepareRequestLogging, defer,
    closeHandle, openHandle, cacheGet, cacheSet, runEngine, modifyCtx,
    emit, getCtx, bind, ret, servedFromCache, logged, aborted, connect in *.

Lemma httpStatusCode_cases (e : error) :
  httpStatusCode (Some e) = (if isInvalidArgument e then 400 else 500).
Proof. destruct e; reflexivity. Qed.

(** C2. An error a handler aborts on is answered with status 400 exactly
    when it is an InvalidArgument, with 500 when it is an InternalError,
    and with 500 when it has any other type; no other status is written
    for a failure, and a nil error aborts nothing. *)
Theorem abortOnError_status {T} (w : World T) (e : error) :
  let '(stopped, w') := abortOnError (Some e) w in
  stopped = true
  ∧ gin.Aborted (ctx w') = true
  ∧ gin.Status (ctx w') = Some (httpStatusCode (Some e))
  ∧ gin.Errors (ctx w') = gin.Errors (ctx w) ++ [e]
  ∧ trace w' = trace w ++ [EvAbort (httpStatusCode (Some e))]
  ∧ (httpStatusCode (Some e) = 400 ↔ isInvalidArgument e = true)
  ∧ (isInternalError e = true → httpStatusCode (Some e) = 500)
  ∧ (isInvalidArgument e = false → httpStatusCode (Some e) = 500)
  ∧ (httpStatusCode (Some e) = 400 ∨ httpStatusCode (Some e) = 500)
  ∧ abortOnError None w = (false, w).
Proof.
  unfold_handler. cbn.
  repeat split; destruct e; cbn; intros; try done; auto.
Qed.

(* ===================================================================== *)
(** ** The paths through makeDataRequest *)
(* ===================================================================== *)
Section Pipeline.
Context {T : Type} `{!cache.Cache T}.
Context {C : Type} `{!Connection C}.
Context `{Engine} `{!HandleOpener C}.
Context {R : Type} `{!DataRequest R}.
Variables (e : Endpoint C) (request : R).

Lemma run_connection_failed (w : World T) err :
  connect e request = Err err →
  run (makeDataRequest e request) w
  = mkWorld (aborted err (logged request (ctx w))) (store w)
            (trace w ++ [EvAbort (httpStatusCode (Some err))]).
Proof.
  intros Hc. unfold_handler.
  destruct (toString request), (credentials request); simpl in *.
  by rewrite Hc.
Qed.

Lemma run_hash_failed (w : World T) conn err :
  connect e request = Ok conn → hash request = Err err →
  run (makeDataRequest e request) w
  = mkWorld (aborted err (logged request (ctx w))) (store w)
            (trace w ++ [EvAbort (httpStatusCode (Some err))]).
Proof.
  intros Hc Hh. unfold_handler.
  destruct (toString request), (credentials request); simpl in *.
  by rewrite Hc; simpl; rewrite Hh.
Qed.

Lemma run_cache_hit (w : World T) conn key :
  connect e request = Ok conn → hash request = Ok key →
  (cache.Get (store w) key).2 && IsAuthorizedToRead conn = true →
  run (makeDataRequest e request) w
  = servedFromCache request key (cache.Get (store w) key).1 w.
Proof.
  intros Hc Hh Hg. unfold_handler.
  destruct (toString request), (credentials request); simpl in *.
  rewrite Hc; simpl; rewrite Hh; simpl.
  destruct (cache.Get (store w) key) as [entry hit]; simpl in *.
  rewrite Hg. simpl. by rewrite <- app_assoc.
Qed.

Lemma run_open_failed (w : World T) conn key err :
  connect e request = Ok conn → hash request = Ok key →
  (cache.Get (store w) key).2 && IsAuthorizedToRead conn = false →
  NewDSHandle conn = Err err →
  run (makeDataRequest e request) w
  = mkWorld (aborted err (logged request (ctx w))) (store w)
            (trace w ++ [EvCacheGet key; EvNewDSHandle false;
                         EvAbort (httpStatusCode (Some err))]).
Proof.
  intros Hc Hh Hg Ho. unfold_handler.
  destruct (toString request), (credentials request); simpl in *.
  rewrite Hc; simpl; rewrite Hh; simpl.
  destruct (cache.Get (store w) key) as [entry hit]; simpl in *.
  rewrite Hg, Ho. simpl. by rewrite <- !app_assoc.
Qed.

Lemma run_execute_failed (w : World T) conn key handle err calls :
  connect e request = Ok conn → hash request = Ok key →
  (cache.Get (store w) key).2 && IsAuthorizedToRead conn = false →
  NewDSHandle conn = Ok handle →
  execute request handle = (Err err, calls) →
  run (makeDataRequest e request) w
  = mkWorld (aborted err (logged request (ctx w))) (store w)
            (trace w ++ [EvCacheGet key; EvNewDSHandle true]
               ++ (EvEngine <$> calls)
               ++ [EvAbort (httpStatusCode (Some err)); EvClose]).
Proof.
  intros Hc Hh Hg Ho Hx. unfold_handler.
  destruct (toString request), (credentials request); simpl in *.
  rewrite Hc; simpl; rewrite Hh; simpl.
  destruct (cache.Get (store w) key) as [entry hit]; simpl in *.
  rewrite Hg, Ho. simpl. rewrite Hx. simpl.
  f_equal. by rewrite <- !app_assoc.
Qed.

Lemma run_executed (w : World T) conn key handle data metadata calls :
  connect e request = Ok conn → hash request = Ok key →
  (cache.Get (store w) key).2 && IsAuthorizedToRead conn = false →
  NewDSHandle conn = Ok handle →
  execute request handle = (Ok (data, metadata), calls) →
  run (makeDataRequest e request) w
  = mkWorld
      (gin.Multipart http.StatusOK (metadata :: data) (logged request (ctx w)))
      (cache.Set_ (store w) key (cache.NewCacheEntry data metadata)).1
      (trace w ++ [EvCacheGet key; EvNewDSHandle true]
         ++ (EvEngine <$> calls)
         ++ [EvCacheSet key (cache.NewCacheEntry data metadata);
             EvResponse http.StatusOK; EvClose]).
Proof.
  intros Hc Hh Hg Ho Hx. unfold_handler.
  destruct (toString request), (credentials request); simpl in *.
  rewrite Hc; simpl; rewrite Hh; simpl.
  destruct (cache.Get (store w) key) as [entry hit]; simpl in *.
  rewrite Hg, Ho. simpl. rewrite Hx. simpl.
  destruct (cache.Set_ _ _ _). simpl.
  f_equal. by rewrite <- !app_assoc.
Qed.

End Pipeline.

(* ===================================================================== *)
(** ** The cache protocol *)
(* ===================================================================== *)
Section Protocol.
Context {T : Type} `{!cache.Cache T}.
Context {C : Type} `{!Connection C}.
Context `{Engine} `{!HandleOpener C}.
Context {R : Type} `{!DataRequest R}.
Variables (e : Endpoint C) (request : R).

(** Every run follows one of the six paths. *)
Lemma run_makeDataRequest_cases (w : World T) :
  let w' := run (makeDataRequest e request) w in
  (∃ err, connect e request = Err err
          ∧ w' = mkWorld (aborted err (logged request (ctx w))) (store w)
                   (trace w ++ [EvAbort (httpStatusCode (Some err))]))
  ∨ (∃ conn err, connect e request = Ok conn ∧ hash request = Err err
          ∧ w' = mkWorld (aborted err (logged request (ctx w))) (store w)
                   (trace w ++ [EvAbort (httpStatusCode (Some err))]))
  ∨ (∃ conn key, connect e request = Ok conn ∧ hash request = Ok key
          ∧ (cache.Get (store w) key).2 && IsAuthorizedToRead conn = true
          ∧ w' = servedFromCache request key (cache.Get (store w) key).1 w)
  ∨ (∃ conn key err, connect e request = Ok conn ∧ hash request = Ok key
          ∧ (cache.Get (store w) key).2 && IsAuthorizedToRead conn = false
          ∧ NewDSHandle conn = Err err
          ∧ w' = mkWorld (aborted err (logged request (ctx w))) (store w)
                   (trace w ++ [EvCacheGet key; EvNewDSHandle false;
                                EvAbort (httpStatusCode (Some err))]))
  ∨ (∃ conn key handle err calls,
          connect e request = Ok conn ∧ hash request = Ok key
          ∧ (cache.Get (store w) key).2 && IsAuthorizedToRead conn = false
          ∧ NewDSHandle conn = Ok handle
          ∧ execute request handle = (Err err, calls)
          ∧ w' = mkWorld (aborted err (logged request (ctx w))) (store w)
                   (trace w ++ [EvCacheGet key; EvNewDSHandle true]
                      ++ (EvEngine <$> calls)
                      ++ [EvAbort (httpStatusCode (Some err)); EvClose]))
  ∨ (∃ conn key handle data metadata calls,
          connect e request = Ok conn ∧ hash request = Ok key
          ∧ (cache.Get (store w) key).2 && IsAuthorizedToRead conn = false
          ∧ NewDSHandle conn = Ok handle
          ∧ execute request handle = (Ok (data, metadata), calls)
          ∧ w' = mkWorld
                   (gin.Multipart http.StatusOK (metadata :: data)
                      (logged request (ctx w)))
                   (cache.Set_ (store w) key
                      (cache.NewCacheEntry data metadata)).1
                   (trace w ++ [EvCacheGet key; EvNewDSHandle true]
                      ++ (EvEngine <$> calls)
                      ++ [EvCacheSet key (cache.NewCacheEntry data metadata);
                          EvResponse http.StatusOK; EvClose])).
Proof.
  intros w'. subst w'.
  destruct (connect e request) as [conn|err] eqn:Hc.
  2:{ left. exists err. split; [done|]. by apply run_connection_failed. }
  destruct (hash request) as [key|err] eqn:Hh.
  2:{ right; left. exists conn, err. repeat split; try done.
      by apply (run_hash_failed _ _ _ conn). }
  destruct ((cache.Get (store w) key).2 && IsAuthorizedToRead conn) eqn:Hg.
  { do 2 right; left. exists conn, key. repeat split; try done.
    by apply (run_cache_hit _ _ _ conn). }
  destruct (NewDSHandle conn) as [handle|err] eqn:Ho.
  2:{ do 3 right; left. exists conn, key, err. repeat split; try done.
      by apply (run_open_failed _ _ _ conn). }
  destruct (execute request handle) as [[[data metadata]|err] calls] eqn:Hx.
  - do 5 right. exists conn, key, handle, data, metadata, calls.
    repeat split; try done. by apply (run_executed _ _ _ conn key handle).
  - do 4 right; left. exists conn, key, handle, err, calls.
    repeat split; try done.
    by apply (run_execute_failed _ _ _ conn key handle).
Qed.

(** With a connection that may not read, the reply does not depend on what
    the cache holds. *)
Lemma unauthorized_reply_independent_of_cache (w : World T) conn store' :
  connect e request = Ok conn →
  IsAuthorizedToRead conn = false →
  ctx (run (makeDataRequest e request) (mkWorld (ctx w) store' (trace w)))
  = ctx (run (makeDataRequest e request) w).
Proof.
  intros Hc Ha.
  destruct (hash request) as [key|err] eqn:Hh.
  2:{ by rewrite !(run_hash_failed _ _ _ conn err). }
  assert (Hg : ∀ s : T, (cache.Get s key).2 && IsAuthorizedToRead conn = false)
    by (intros; rewrite Ha; apply andb_false_r).
  destruct (NewDSHandle conn) as [handle|err] eqn:Ho.
  2:{ rewrite !(run_open_failed _ _ _ conn key err); auto. }
  destruct (execute request handle) as [[[data metadata]|err] calls] eqn:Hx.
  - rewrite !(run_executed _ _ _ conn key handle data metadata calls); auto.
  - rewrite !(run_execute_failed _ _ _ conn key handle err calls); auto.
Qed.

(** C1. When the fingerprint of a data request hits the cache, the cached
    metadata and data blocks are the reply (flagged as served from the
    cache, and with no handle opened) if and only if the connection made
    from the request's credentials is authorized to read.  Otherwise the
    handler goes on to open the handle, the cache-hit flag is left as it
    was, and the reply is the one it would be whatever the cache holds:
    nothing of the hit is disclosed. *)
Theorem cache_hit_requires_authorization
    (w : World T) conn key entry :
  connect e request = Ok conn →
  hash request = Ok key →
  cache.Get (store w) key = (entry, true) →
  let w' := run (makeDataRequest e request) w in
  (w' = servedFromCache request key entry w ↔ IsAuthorizedToRead conn = true)
  ∧ (IsAuthorizedToRead conn = false →
       (∃ evs, trace w' = trace w
                 ++ [EvCacheGet key; EvNewDSHandle (isOk (NewDSHandle conn))]
                 ++ evs)
       ∧ gin.Keys (ctx w') !! "cache-hit" = gin.Keys (ctx w) !! "cache-hit"
       ∧ ∀ store',
           ctx (run (makeDataRequest e request)
                    (mkWorld (ctx w) store' (trace w))) = ctx w').
Proof.
  intros Hc Hh Hg w'.
  assert (Hun : IsAuthorizedToRead conn = false →
     (∃ evs, trace w' = trace w
                 ++ [EvCacheGet key; EvNewDSHandle (isOk (NewDSHandle conn))]
                 ++ evs)
     ∧ gin.Keys (ctx w') !! "cache-hit" = gin.Keys (ctx w) !! "cache-hit").
  { intros Ha. subst w'.
    assert (Hg' : (cache.Get (store w) key).2 && IsAuthorizedToRead conn = false)
      by (rewrite Ha; apply andb_false_r).
    destruct (NewDSHandle conn) as [handle|err] eqn:Ho.
    2:{ rewrite (run_open_failed _ _ _ conn key err); auto. simpl.
        split; [by eexists [_]|]. by rewrite lookup_insert_ne. }
    destruct (execute request handle) as [[[data metadata]|err] calls] eqn:Hx.
    - rewrite (run_executed _ _ _ conn key handle data metadata calls); auto.
      simpl. split; [by eexists|]. by rewrite lookup_insert_ne.
    - rewrite (run_execute_failed _ _ _ conn key handle err calls); auto.
      simpl. split; [by eexists|]. by rewrite lookup_insert_ne. }
  split; [split|].
  - intros Hw. destruct (IsAuthorizedToRead conn) eqn:Ha; [done|].
    destruct (Hun eq_refl) as [[evs Ht] _].
    rewrite Hw in Ht. simpl in Ht.
    apply app_inv_head in Ht. discriminate.
  - intros Ha. subst w'.
    rewrite (run_cache_hit _ _ _ conn key); auto.
    + by rewrite Hg.
    + by rewrite Hg, Ha.
  - intros Ha. destruct (Hun Ha) as [Ht Hk]. repeat split; auto.
    intros store'. by apply (unauthorized_reply_independent_of_cache _ conn).
Qed.

Ltac no_such_event Hex :=
  repeat (apply Exists_cons in Hex as [Hex|Hex]; [discriminate|]);
  by apply Exists_nil in Hex.

(** C4. A data request that fails, at connection creation, at
    fingerprinting, at opening the dataset handle or in the variant's
    execute, is aborted (and only such a request is), leaves the state of
    the cache as it was, issues no insert, and writes no part of a reply. *)
Theorem failure_is_never_cached (w : World T) :
  gin.Aborted (ctx w) = false →
  let w' := run (makeDataRequest e request) w in
  (stageFailure e request w ↔ gin.Aborted (ctx w') = true)
  ∧ (stageFailure e request w →
       store w' = store w
       ∧ gin.Written (ctx w') = gin.Written (ctx w)
       ∧ ∃ evs, trace w' = trace w ++ evs
                ∧ Forall (λ ev, isCacheSet ev = false) evs).
Proof.
  intros Hnot w'. unfold stageFailure.
  destruct (run_makeDataRequest_cases w) as
    [(err & Hc & Hw)
    |[(conn & err & Hc & Hh & Hw)
    |[(conn & key & Hc & Hh & Hg & Hw)
    |[(conn & key & err & Hc & Hh & Hg & Ho & Hw)
    |[(conn & key & handle & err & calls & Hc & Hh & Hg & Ho & Hx & Hw)
    |(conn & key & handle & data & metadata & calls
        & Hc & Hh & Hg & Ho & Hx & Hw)]]]]];
    fold w' in Hw; rewrite Hw, Hc; try rewrite Hh; try rewrite Hg;
    try rewrite Ho; try rewrite Hx; simpl.
  - repeat split; auto. eexists; split; [done|]. by repeat constructor.
  - repeat split; auto. eexists; split; [done|]. by repeat constructor.
  - rewrite Hnot. repeat split; try done.
  - repeat split; auto. eexists; split; [done|]. by repeat constructor.
  - repeat split; auto. eexists; split; [done|].
    repeat constructor. apply Forall_app. split; [|by repeat constructor].
    apply Forall_fmap. by apply Forall_true.
  - rewrite Hnot. repeat split; try done.
Qed.

(** C7, as the code has it.  The handle is opened only once the connection
    is made, the request is fingerprinted and the reply is not served from
    the cache; the validation a variant does (direction token, window
    bounds) runs inside execute, with the handle already open.  A handle
    that is opened is closed exactly once, after the last engine call and
    after the reply or the abort, on every path. *)
Theorem handle_scoped_to_request (w : World T) :
  let w' := run (makeDataRequest e request) w in
  ∃ evs, trace w' = trace w ++ evs
    ∧ handleScoped evs
    ∧ (Exists (λ ev, isOpen ev = true) evs ↔
         ∃ conn key, connect e request = Ok conn ∧ hash request = Ok key
           ∧ (cache.Get (store w) key).2 && IsAuthorizedToRead conn = false
           ∧ isOk (NewDSHandle conn) = true)
    ∧ (Exists (λ ev, isOpen ev = true) evs → last evs = Some EvClose).
Proof.
  intros w'.
  destruct (run_makeDataRequest_cases w) as
    [(err & Hc & Hw)
    |[(conn & err & Hc & Hh & Hw)
    |[(conn & key & Hc & Hh & Hg & Hw)
    |[(conn & key & err & Hc & Hh & Hg & Ho & Hw)
    |[(conn & key & handle & err & calls & Hc & Hh & Hg & Ho & Hx & Hw)
    |(conn & key & handle & data & metadata & calls
        & Hc & Hh & Hg & Ho & Hx & Hw)]]]]];
    fold w' in Hw; rewrite Hw; simpl; eexists; (split; [reflexivity|]).
  - split; [left; by repeat constructor|]. split; [split|].
    + intros Hex. no_such_event Hex.
    + intros (conn & key & Hc' & _). congruence.
    + intros Hex. no_such_event Hex.
  - split; [left; by repeat constructor|]. split; [split|].
    + intros Hex. no_such_event Hex.
    + intros (conn' & key & Hc' & Hh' & _). congruence.
    + intros Hex. no_such_event Hex.
  - split; [left; by repeat constructor|]. split; [split|].
    + intros Hex. no_such_event Hex.
    + intros (conn' & key' & Hc' & Hh' & Hg' & _). congruence.
    + intros Hex. no_such_event Hex.
  - split; [left; by repeat constructor|]. split; [split|].
    + intros Hex. no_such_event Hex.
    + intros (conn' & key' & Hc' & Hh' & Hg' & Ho'). 
      assert (conn' = conn) by congruence; subst. by rewrite Ho in Ho'.
    + intros Hex. no_such_event Hex.
  - split.
    { right. exists [EvCacheGet key],
        ((EvEngine <$> calls) ++ [EvAbort (httpStatusCode (Some err))]).
      split; [simpl; by rewrite <- ?app_assoc|]. split; [by repeat constructor|].
      apply Forall_app. split; [|by repeat constructor].
      apply Forall_fmap. by apply Forall_true. }
    split; [split|].
    + intros _. exists conn, key. by rewrite Ho.
    + intros _. apply Exists_cons_tl, Exists_cons_hd. done.
    + intros _. simpl. by rewrite !last_cons, last_app.
  - split.
    { right. exists [EvCacheGet key],
        ((EvEngine <$> calls)
           ++ [EvCacheSet key (cache.NewCacheEntry data metadata);
               EvResponse http.StatusOK]).
      split; [simpl; by rewrite <- ?app_assoc|]. split; [by repeat constructor|].
      apply Forall_app. split; [|by repeat constructor].
      apply Forall_fmap. by apply Forall_true. }
    split; [split|].
    + intros _. exists conn, key. by rewrite Ho.
    + intros _. apply Exists_cons_tl, Exists_cons_hd. done.
    + intros _. simpl. by rewrite !last_cons, last_app.
Qed.

End Protocol.

Section MapProtocol.
Context {C : Type} `{!Connection C}.
Context `{Engine} `{!HandleOpener C}.
Context {R : Type} `{!DataRequest R}.
Variables (e : Endpoint C) (request : R).

(** C3. When the variant's execute succeeds, the entry at the request's
    fingerprint is inserted, or overwritten, with the computed data and
    metadata, whatever was there; the insert comes before the reply is
    written; and the reply is the computed metadata followed by the
    computed data blocks, not an entry the cache held. *)
Theorem executed_result_cached_and_returned
    (w : World (gmap string cache.CacheEntry))
    conn key handle data metadata calls :
  connect e request = Ok conn →
  hash request = Ok key →
  (cache.Get (store w) key).2 && IsAuthorizedToRead conn = false →
  NewDSHandle conn = Ok handle →
  execute request handle = (Ok (data, metadata), calls) →
  let w' := run (makeDataRequest e request) w in
  let entry := cache.NewCacheEntry data metadata in
  store w' = <[key := entry]> (store w)
  ∧ cache.Get (store w') key = (entry, true)
  ∧ trace w' = trace w ++ [EvCacheGet key; EvNewDSHandle true]
                 ++ (EvEngine <$> calls)
                 ++ [EvCacheSet key entry; EvResponse http.StatusOK; EvClose]
  ∧ gin.Status (ctx w') = Some http.StatusOK
  ∧ gin.Written (ctx w') = gin.MultipartBody (metadata :: data)
  ∧ gin.Aborted (ctx w') = gin.Aborted (ctx w).
Proof.
  intros Hc Hh Hg Ho Hx w' entry. subst w'.
  rewrite (run_executed _ _ _ conn key handle data metadata calls); auto.
  simpl. repeat split; auto.
  by rewrite lookup_insert_eq.
Qed.

End MapProtocol.

(* ===================================================================== *)
(** ** The metadata handler *)
(* ===================================================================== *)
Section Metadata.
Context {T : Type}.
Context {C : Type}.
Context `{Engine} `{!HandleOpener C} `{!Stringable MetadataRequest}.
Variables (e : Endpoint C) (request : MetadataRequest).

(** C10. The metadata handler makes no cache lookup and no cache insert on
    any path: the state of the cache is what it was, no cache event is
    issued, the same run on any other cache state gives the same reply and
    the same events, and a successful reply is the document the handle
    returned. *)
Theorem metadata_leaves_cache_alone (w : World T) :
  let w' := run (metadata e request) w in
  store w' = store w
  ∧ (∃ evs, trace w' = trace w ++ evs
            ∧ Forall (λ ev, isCacheAccess ev = false) evs)
  ∧ (∀ store' : T,
       let w2 := run (metadata e request) (mkWorld (ctx w) store' (trace w)) in
       ctx w2 = ctx w' ∧ trace w2 = trace w' ∧ store w2 = store')
  ∧ (∀ conn handle buffer,
       MakeVdsConnection e (Vds (MetadataResource request))
                           (Sas (MetadataResource request)) = Ok conn →
       NewDSHandle conn = Ok handle →
       GetMetadata handle = Ok buffer →
       gin.Status (ctx w') = Some http.StatusOK
       ∧ gin.Written (ctx w') = gin.DataBody "application/json" buffer).
Proof.
  unfold_handler. destruct (toString request) as [text ?]. simpl.
  destruct (MakeVdsConnection e _ _) as [conn|err]; simpl.
  2:{ split; [done|]. split; [|split; [done|by intros ??? [=]]].
      eexists; split; [done|]. by repeat constructor. }
  destruct (NewDSHandle conn) as [handle|err] eqn:Ho; simpl.
  2:{ split; [done|]. split.
      - rewrite <- app_assoc. eexists; split; [done|]. by repeat constructor.
      - split; [done|]. intros ??? [= <-]. by rewrite Ho. }
  destruct (GetMetadata handle) as [buffer|err] eqn:Hm; simpl.
  - split; [done|]. split.
    + rewrite <- !app_assoc. eexists; split; [done|]. by repeat constructor.
    + split; [done|]. intros ??? [= <-]. rewrite Ho. intros [= <-].
      rewrite Hm. by intros [= <-].
  - split; [done|]. split.
    + rewrite <- !app_assoc. eexists; split; [done|]. by repeat constructor.
    + split; [done|]. intros ??? [= <-]. rewrite Ho. intros [= <-].
      by rewrite Hm.
Qed.

End Metadata.

(* ===================================================================== *)
(** ** The vertical window *)
(* ===================================================================== *)
Section Window.

Lemma digits2_pos_size (m : positive) : digits2_pos m = Pos.size m.
Proof. induction m; simpl; congruence. Qed.

(** A mantissa of the format has at most 24 bits, and exactly 24 above the
    smallest exponent. *)
Lemma float32_mantissa_bounds (m : positive) (e : Z) :
  bounded 24 128 m e = true →
  (Z.pos m < 2 ^ 24 ∧ (-149 < e → 2 ^ 23 ≤ Z.pos m) ∧ -149 ≤ e ≤ 104)%Z.
Proof.
  unfold bounded, canonical_mantissa, fexp, emin.
  rewrite andb_true_iff, Z.eqb_eq, Z.leb_le, digits2_pos_size.
  intros [Hmax Hle].
  pose proof (Pos.size_gt m) as Hgt.
  pose proof (Pos.size_le m) as Hsz.
  apply Pos2Z.pos_lt_pos in Hgt. apply Pos2Z.pos_le_pos in Hsz.
  rewrite Pos2Z.inj_pow in Hgt, Hsz. rewrite Pos2Z.inj_xO in Hsz.
  set (d := Z.pos (Pos.size m)) in *.
  assert (Hd : (0 < d)%Z) by (subst d; lia).
  assert (Hd24 : (d ≤ 24)%Z) by lia.
  pose proof (Z.pow_le_mono_r 2 d 24 ltac:(lia) Hd24) as Hpow.
  split; [lia|]. split; [|lia].
  intros He. assert (d = 24)%Z as Hdeq by lia.
  rewrite Hdeq in Hsz. change (2 ^ 24)%Z with (2 * 2 ^ 23)%Z in Hsz. lia.
Qed.

Lemma pos_pow2_to_Z (k : Z) :
  (0 < k)%Z → Z.pos (2 ^ Z.to_pos k) = (2 ^ k)%Z.
Proof.
  intros Hk. rewrite Pos2Z.inj_pow. f_equal. by rewrite Z2Pos.id.
Qed.

(** [x < 0] as the code tests it. *)
Lemma below_lowerBound (x : float32) :
  finite32 x = true →
  SFltb x (float32_const api.lowerBound) = true ↔ (float32_to_Q x < 0)%Q.
Proof.
  change (float32_const api.lowerBound) with (S754_zero false).
  destruct x as [s| | |s m e]; [|done|done|]; intros _.
  - unfold SFltb; simpl. split; [done|]. intros Hq. by apply Qlt_irrefl in Hq.
  - unfold SFltb, float32_to_Q; simpl.
    destruct s, (0 <=? e)%Z eqn:He; unfold Qlt; simpl; split; try done;
      try lia.
Qed.

(** [x >= 250] as the code tests it. *)
Lemma at_least_upperBound (x : float32) :
  finite32 x = true →
  SFleb (float32_const api.upperBound) x = true ↔ (250 <= float32_to_Q x)%Q.
Proof.
  change (float32_const api.upperBound) with (S754_finite false 16384000 (-16)).
  unfold finite32, is_float32.
  destruct x as [s| | |s m e]; [|done|done|]; simpl.
  { intros _. unfold SFleb, Qle; simpl. split; [done|lia]. }
  rewrite andb_true_r. intros Hb.
  destruct (float32_mantissa_bounds m e Hb) as (Hhi & Hlo & Hemin & Hemax).
  unfold SFleb, SFcompare, float32_to_Q.
  destruct s.
  { split; [done|]. unfold Qle. destruct (0 <=? e)%Z eqn:He; simpl.
    - assert (0 < 2 ^ e)%Z by (apply Z.pow_pos_nonneg; lia). nia.
    - lia. }
  destruct (Z.compare_spec (-16) e) as [Heq|Hlt|Hgt].
  - subst e. simpl. unfold Qle; simpl.
    change (Pos.compare_cont Eq 16384000 m) with (16384000 ?= m)%positive.
    destruct (Pos.compare_spec 16384000 m); split; try done; lia.
  - split; [intros _|done]. specialize (Hlo ltac:(lia)).
    change (2 ^ 23)%Z with 8388608%Z in Hlo.
    unfold Qle. destruct (0 <=? e)%Z eqn:He; simpl.
    + assert (1 ≤ 2 ^ e)%Z by (apply Z.leb_le in He;
        change 1%Z with (2 ^ 0)%Z; apply Z.pow_le_mono_r; lia). nia.
    + apply Z.leb_gt in He. rewrite pos_pow2_to_Z by lia.
      assert (2 ^ (- e) ≤ 2 ^ 15)%Z by (apply Z.pow_le_mono_r; lia).
      change (2 ^ 15)%Z with 32768%Z in *. lia.
  - split; [done|]. unfold Qle.
    assert (He : (0 <=? e)%Z = false) by (apply Z.leb_gt; lia).
    rewrite He. simpl. rewrite pos_pow2_to_Z by lia.
    assert (2 ^ 17 ≤ 2 ^ (- e))%Z by (apply Z.pow_le_mono_r; lia).
    change (2 ^ 17)%Z with 131072%Z in *.
    change (2 ^ 24)%Z with 16777216%Z in *. lia.
Qed.

Lemma outside_window (x : float32) :
  finite32 x = true →
  SFltb x (float32_const api.lowerBound)
  || SFleb (float32_const api.upperBound) x = true ↔ ¬ inWindow x.
Proof.
  intros Hx. rewrite orb_true_iff, below_lowerBound, at_least_upperBound by done.
  unfold inWindow. split.
  - intros [Hlt|Hge] [H0 H250].
    + by apply Qlt_not_le in Hlt.
    + by apply Qle_not_lt in Hge.
  - intros Hn. destruct (Qlt_le_dec (float32_to_Q x) 0) as [?|H0]; [by left|].
    destruct (Qlt_le_dec (float32_to_Q x) 250) as [H250|?]; [|by right].
    by destruct Hn.
Qed.

Lemma validateVerticalWindow_above (above below stepsize : float32) :
  SFltb above (float32_const api.lowerBound)
  || SFleb (float32_const api.upperBound) above = true →
  validateVerticalWindow above below stepsize
  = Some (InvalidArgument
            ("'above' out of range! Must be within [0, 250], was "
             +:+ fmt.verb_f above)).
Proof. unfold validateVerticalWindow. by intros ->. Qed.

Lemma validateVerticalWindow_below (above below stepsize : float32) :
  SFltb above (float32_const api.lowerBound)
  || SFleb (float32_const api.upperBound) above = false →
  SFltb below (float32_const api.lowerBound)
  || SFleb (float32_const api.upperBound) below = true →
  validateVerticalWindow above below stepsize
  = Some (InvalidArgument
            ("'below' out of range! Must be within [0, 250], was "
             +:+ fmt.verb_f below)).
Proof. unfold validateVerticalWindow. by intros -> ->. Qed.

Lemma validateVerticalWindow_stepsize (above below stepsize : float32) :
  SFltb above (float32_const api.lowerBound)
  || SFleb (float32_const api.upperBound) above = false →
  SFltb below (float32_const api.lowerBound)
  || SFleb (float32_const api.upperBound) below = false →
  SFltb stepsize (float32_const api.lowerBound) = true →
  validateVerticalWindow above below stepsize
  = Some (InvalidArgument
            ("'stepsize' out of range! Must be bigger than 0, was "
             +:+ fmt.verb_f stepsize)).
Proof. unfold validateVerticalWindow. by intros -> -> ->. Qed.

Lemma validateVerticalWindow_ok (above below stepsize : float32) :
  SFltb above (float32_const api.lowerBound)
  || SFleb (float32_const api.upperBound) above = false →
  SFltb below (float32_const api.lowerBound)
  || SFleb (float32_const api.upperBound) below = false →
  SFltb stepsize (float32_const api.lowerBound) = false →
  validateVerticalWindow above below stepsize = None.
Proof. unfold validateVerticalWindow. by intros -> -> ->. Qed.

(** A NaN passes every comparison of the validation; no JSON number
    decodes to one. *)
Remark validateVerticalWindow_nan :
  validateVerticalWindow S754_nan S754_nan S754_nan = None.
Proof. reflexivity. Qed.

Context `{Engine}.

(** C5. For a request along a surface whose window parameters are finite
    numbers, validation fails exactly when above or below lies outside
    [0, 250) or stepsize is negative; the error is an InvalidArgument (status
    400) that names the first offending parameter and its bound; execute
    returns it without one call to the engine; inside the window execute
    goes on to the engine.  With above = -1 the message contains
    ['above' out of range]. *)
Theorem vertical_window_validated
    (request : AttributeAlongSurfaceRequest.t) (handle : DSHandle) :
  let above := AttributeAlongSurfaceRequest.Above request in
  let below := AttributeAlongSurfaceRequest.Below request in
  let stepsize := AttributeAlongSurfaceRequest.Stepsize request in
  finite32 above = true → finite32 below = true → finite32 stepsize = true →
  let outside :=
    ¬ inWindow above ∨ ¬ inWindow below ∨ (float32_to_Q stepsize < 0)%Q in
  (outside ↔
     ∃ msg, validateVerticalWindow above below stepsize
            = Some (InvalidArgument msg))
  ∧ (¬ inWindow above →
       validateVerticalWindow above below stepsize
       = Some (InvalidArgument
                 ("'above' out of range! Must be within [0, 250], was "
                  +:+ fmt.verb_f above)))
  ∧ (inWindow above → ¬ inWindow below →
       validateVerticalWindow above below stepsize
       = Some (InvalidArgument
                 ("'below' out of range! Must be within [0, 250], was "
                  +:+ fmt.verb_f below)))
  ∧ (inWindow above → inWindow below → (float32_to_Q stepsize < 0)%Q →
       validateVerticalWindow above below stepsize
       = Some (InvalidArgument
                 ("'stepsize' out of range! Must be bigger than 0, was "
                  +:+ fmt.verb_f stepsize)))
  ∧ (∀ err, validateVerticalWindow above below stepsize = Some err →
       AttributeAlongSurfaceRequest.execute request handle = (Err err, [])
       ∧ httpStatusCode (Some err) = http.StatusBadRequest)
  ∧ (¬ outside → ∀ interpolation metadata data,
       GetInterpolationMethod
         (AttributeAlongSurfaceRequest.Interpolation request)
       = Ok interpolation →
       GetAttributeMetadata handle
         (Values (AttributeAlongSurfaceRequest.Surface request))
       = Ok metadata →
       GetAttributesAlongSurface handle
         (AttributeAlongSurfaceRequest.Surface request) above below stepsize
         (AttributeAlongSurfaceRequest.Attributes request) interpolation
       = Ok data →
       AttributeAlongSurfaceRequest.execute request handle
       = (Ok (data, metadata),
          [CallGetAttributeMetadata; CallGetAttributesAlongSurface]))
  ∧ (above = float32_const (-1) →
       ∃ msg, AttributeAlongSurfaceRequest.execute request handle
              = (Err (InvalidArgument msg), [])
              ∧ strings.Contains msg "'above' out of range" = true).
Proof.
  intros above below stepsize Ha Hb Hs outside.
  pose proof (outside_window above Ha) as Hwa.
  pose proof (outside_window below Hb) as Hwb.
  pose proof (below_lowerBound stepsize Hs) as Hws.
  assert (Hin : ∀ x, finite32 x = true → inWindow x →
            SFltb x (float32_const api.lowerBound)
            || SFleb (float32_const api.upperBound) x = false).
  { intros x Hx Hi. apply not_true_is_false. intros Hc.
    by apply (outside_window x Hx) in Hc. }
  assert (Hexec : ∀ err, validateVerticalWindow above below stepsize = Some err →
            AttributeAlongSurfaceRequest.execute request handle = (Err err, [])).
  { intros err Hv. unfold AttributeAlongSurfaceRequest.execute.
    fold above below stepsize. by rewrite Hv. }
  assert (Habove : ¬ inWindow above →
       validateVerticalWindow above below stepsize
       = Some (InvalidArgument
                 ("'above' out of range! Must be within [0, 250], was "
                  +:+ fmt.verb_f above))).
  { intros Hn. apply validateVerticalWindow_above. by apply Hwa. }
  assert (Hbelow : inWindow above → ¬ inWindow below →
       validateVerticalWindow above below stepsize
       = Some (InvalidArgument
                 ("'below' out of range! Must be within [0, 250], was "
                  +:+ fmt.verb_f below))).
  { intros Hi Hn. apply validateVerticalWindow_below; [by apply Hin|].
    by apply Hwb. }
  assert (Hstep : inWindow above → inWindow below →
       (float32_to_Q stepsize < 0)%Q →
       validateVerticalWindow above below stepsize
       = Some (InvalidArgument
                 ("'stepsize' out of range! Must be bigger than 0, was "
                  +:+ fmt.verb_f stepsize))).
  { intros Hi1 Hi2 Hn. apply validateVerticalWindow_stepsize;
      [by apply Hin|by apply Hin|by apply Hws]. }
  assert (Hdec : ∀ x, finite32 x = true → inWindow x ∨ ¬ inWindow x).
  { intros x Hx. destruct (SFltb x (float32_const api.lowerBound)
        || SFleb (float32_const api.upperBound) x) eqn:Hc.
    - right. by apply outside_window.
    - left. destruct (Qlt_le_dec (float32_to_Q x) 0) as [Hlt|H0].
      { apply (below_lowerBound x Hx) in Hlt. rewrite Hlt in Hc. done. }
      destruct (Qlt_le_dec (float32_to_Q x) 250) as [H250|Hge]; [done|].
      apply (at_least_upperBound x Hx) in Hge. rewrite Hge in Hc.
      by rewrite orb_true_r in Hc. }
  assert (Hok : ¬ outside →
            validateVerticalWindow above below stepsize = None).
  { intros Hn. unfold outside in Hn.
    destruct (Hdec above Ha) as [Hia|?]; [|tauto].
    destruct (Hdec below Hb) as [Hib|?]; [|tauto].
    apply validateVerticalWindow_ok; [by apply Hin|by apply Hin|].
    apply not_true_is_false. rewrite Hws. tauto. }
  split; [split|].
  - intros [Hn|[Hn|Hn]].
    + eexists. by apply Habove.
    + destruct (Hdec above Ha); eexists; [by apply Hbelow|by apply Habove].
    + destruct (Hdec above Ha); [|eexists; by apply Habove].
      destruct (Hdec below Hb); eexists; [by apply Hstep|by apply Hbelow].
  - intros [msg Hv].
    destruct (Hdec above Ha) as [Hia|?]; [|by left].
    destruct (Hdec below Hb) as [Hib|?]; [|by right; left].
    right; right. destruct (Qlt_le_dec (float32_to_Q stepsize) 0) as [|Hge];
      [done|].
    rewrite Hok in Hv; [done|]. unfold outside.
    intros [?|[?|Hlt]]; [done|done|]. by apply Qlt_not_le in Hlt.
  - split; [exact Habove|]. split; [exact Hbelow|]. split; [exact Hstep|].
    split; [|split].
    + intros err Hv. split; [by apply Hexec|].
      destruct (Hdec above Ha) as [Hia|Hna];
        [|rewrite Habove in Hv by done; by injection Hv as <-].
      destruct (Hdec below Hb) as [Hib|Hnb];
        [|rewrite Hbelow in Hv by done; by injection Hv as <-].
      destruct (Qlt_le_dec (float32_to_Q stepsize) 0) as [Hlt|Hge];
        [rewrite Hstep in Hv by done; by injection Hv as <-|].
      rewrite Hok in Hv; [done|]. unfold outside.
      intros [?|[?|Hlt]]; [done|done|]. by apply Qlt_not_le in Hlt.
    + intros Hn interpolation metadata data Hi Hm Hd.
      unfold AttributeAlongSurfaceRequest.execute.
      fold above below stepsize. rewrite (Hok Hn), Hi. simpl.
      rewrite Hm. simpl. fold above below stepsize. by rewrite Hd.
    + intros Heq. eexists. split.
      * apply Hexec, validateVerticalWindow_above. by rewrite Heq.
      * rewrite Heq. by vm_compute.
Qed.

End Window.

(* ===================================================================== *)
(** ** Parsing a GET request *)
(* ===================================================================== *)
Section Parsing.
Context {V : Type} `{!Binding V} `{!Normalizable V}.

(** C6. A GET request without a query parameter fails with an
    InvalidArgument whose message is not the one a request with a
    malformed query gets; the answer is the same whatever the decoder would
    do, so it is given before any decoding. *)
Theorem missing_query_is_its_own_error
    (missing malformed : gin.Context) (query : string) (err : error) :
  gin.Query missing !! "query" = None →
  gin.Query malformed !! "query" = Some query →
  Unmarshal (V := V) query = Err err →
  parseGetRequest (V := V) missing = Err (InvalidArgument missingQueryMessage)
  ∧ parseGetRequest (V := V) malformed
    = Err (InvalidArgument (invalidQueryMessage +:+ Error err))
  ∧ missingQueryMessage ≠ invalidQueryMessage +:+ Error err
  ∧ parseGetRequest (V := V) missing ≠ parseGetRequest (V := V) malformed
  ∧ ∀ (decoder : Binding V),
      @parseGetRequest V decoder _ missing
      = Err (InvalidArgument missingQueryMessage).
Proof.
  intros Hmissing Hquery Hjson.
  assert (Hm : ∀ decoder : Binding V,
             @parseGetRequest V decoder _ missing
             = Err (InvalidArgument missingQueryMessage)).
  { intros decoder. unfold parseGetRequest, gin.GetQuery.
    by rewrite Hmissing. }
  assert (Hq : parseGetRequest (V := V) malformed
               = Err (InvalidArgument (invalidQueryMessage +:+ Error err))).
  { unfold parseGetRequest, gin.GetQuery. rewrite Hquery. simpl.
    by rewrite Hjson. }
  assert (Hne : missingQueryMessage ≠ invalidQueryMessage +:+ Error err)
    by done.
  repeat split; auto.
  rewrite Hm, Hq. by intros [= ?].
Qed.

End Parsing.

(* ===================================================================== *)
(** ** The direction of a slice *)
(* ===================================================================== *)
Section Direction.
Context `{Engine}.

Lemma toLowerAscii_sameLetter (a b : ascii) :
  sameLetter a b → strings.toLowerAscii a = strings.toLowerAscii b.
Proof.
  assert (Hup : ∀ x y, upperCase x → (N_of_ascii y = N_of_ascii x + 32)%N →
            strings.toLowerAscii x = strings.toLowerAscii y).
  { intros x y [Hlo Hhi] Hy. unfold strings.toLowerAscii.
    destruct (N.leb_spec 65 (N_of_ascii x)); [|lia].
    destruct (N.leb_spec (N_of_ascii x) 90); [|lia].
    destruct (N.leb_spec (N_of_ascii y) 90); [lia|].
    rewrite andb_false_r. simpl.
    by rewrite <- Hy, ascii_N_embedding. }
  intros [->|[[Hu Hb]|[Hu Ha]]]; [done|by apply Hup|symmetry; by apply Hup].
Qed.

Lemma sameLetter_below_RuneSelf (a b : ascii) :
  sameLetter a b →
  (N_of_ascii a <? 128)%N = (N_of_ascii b <? 128)%N.
Proof.
  intros [->|[[[Hlo Hhi] Hb]|[[Hlo Hhi] Ha]]]; [done| |];
    destruct (N.ltb_spec (N_of_ascii a) 128),
             (N.ltb_spec (N_of_ascii b) 128); try done; lia.
Qed.

Lemma caseVariant_isASCII (s1 s2 : string) :
  caseVariant s1 s2 → strings.isASCII s1 = strings.isASCII s2.
Proof.
  revert s2. induction s1 as [|a s1 IH]; intros [|b s2]; simpl; try done.
  intros [Hab Hrest]. by rewrite (sameLetter_below_RuneSelf a b), (IH s2).
Qed.

Lemma lowerASCII_caseVariant (s1 s2 : string) :
  caseVariant s1 s2 → strings.lowerASCII s1 = strings.lowerASCII s2.
Proof.
  revert s2. induction s1 as [|a s1 IH]; intros [|b s2]; simpl; try done.
  intros [Hab Hrest]. by rewrite (toLowerAscii_sameLetter a b), (IH s2).
Qed.

Lemma lowerASCII_no_upper (s : string) :
  strings.hasUpper s = false → strings.lowerASCII s = s.
Proof.
  induction s as [|c s IH]; simpl; [done|].
  intros [Hc Hs]%orb_false_iff. unfold strings.toLowerAscii.
  by rewrite Hc, (IH Hs).
Qed.

Context `{!strings.Unicode}.

(** On a string of ASCII bytes [strings.ToLower] is the byte-wise
    lower-casing, whatever the Unicode tables are. *)
Lemma ToLower_ASCII (s : string) :
  strings.isASCII s = true → strings.ToLower s = strings.lowerASCII s.
Proof.
  intros Ha. unfold strings.ToLower. rewrite Ha.
  destruct (strings.hasUpper s) eqn:Hu; [done|].
  symmetry. by apply lowerASCII_no_upper.
Qed.

Lemma ToLower_caseVariant (s1 s2 : string) :
  strings.isASCII s1 = true → caseVariant s1 s2 →
  strings.ToLower s1 = strings.ToLower s2.
Proof.
  intros Ha Hcase.
  rewrite !ToLower_ASCII; [by apply lowerASCII_caseVariant| |done].
  by rewrite <- (caseVariant_isASCII _ _ Hcase).
Qed.

(** A string with a byte outside ASCII is lower-cased by the Unicode
    tables alone: a direction written with the Kelvin sign U+212A, which
    they send to the letter k, is decoded as that letter. *)
Remark ToLower_outside_ASCII (s : string) :
  strings.isASCII s = false → strings.ToLower s = strings.MapToLower s.
Proof. intros Ha. unfold strings.ToLower. by rewrite Ha. Qed.

(** C8. Two slice requests that are the same but for the casing of the
    direction have the same result of execute.  The directions differ in
    casing only when they are made of ASCII bytes and differ only in the
    case of their letters, or, for any bytes, when Go's [strings.ToLower]
    sends them to the same string; in both cases the lower-cased direction
    that execute decodes is the same.  A direction that is no valid token
    once lower-cased fails with an InvalidArgument that quotes it and lists
    the valid options, before any call to the engine; and the direction
    "unknown", in any casing, gives a message containing
    [invalid direction 'unknown'] and the status 400. *)
Theorem slice_direction_case_insensitive
    (r1 r2 : SliceRequest.t) (handle : DSHandle) :
  SliceRequest.Resource r1 = SliceRequest.Resource r2 →
  SliceRequest.Lineno r1 = SliceRequest.Lineno r2 →
  SliceRequest.Bounds r1 = SliceRequest.Bounds r2 →
  (strings.isASCII (SliceRequest.Direction r1) = true
   ∧ caseVariant (SliceRequest.Direction r1) (SliceRequest.Direction r2))
  ∨ strings.ToLower (SliceRequest.Direction r1)
    = strings.ToLower (SliceRequest.Direction r2) →
  strings.ToLower (SliceRequest.Direction r1)
  = strings.ToLower (SliceRequest.Direction r2)
  ∧ SliceRequest.execute r1 handle = SliceRequest.execute r2 handle
  ∧ (∀ r : SliceRequest.t,
       lookupToken axisTokens (strings.ToLower (SliceRequest.Direction r))
       = None →
       SliceRequest.execute r handle
       = (Err (InvalidArgument
                 ("invalid direction '"
                  +:+ strings.ToLower (SliceRequest.Direction r)
                  +:+ "', valid options are: " +:+ axisOptions)), []))
  ∧ (∀ r : SliceRequest.t,
       caseVariant (SliceRequest.Direction r) "unknown"
       ∨ strings.ToLower (SliceRequest.Direction r) = "unknown" →
       ∃ msg, SliceRequest.execute r handle = (Err (InvalidArgument msg), [])
              ∧ strings.Contains msg "invalid direction 'unknown'" = true
              ∧ httpStatusCode (Some (InvalidArgument msg))
                = http.StatusBadRequest).
Proof.
  intros Hres Hline Hbounds Hcasing.
  assert (Hcase : strings.ToLower (SliceRequest.Direction r1)
                  = strings.ToLower (SliceRequest.Direction r2)).
  { destruct Hcasing as [[Ha Hv]|Hl]; [|exact Hl].
    by apply ToLower_caseVariant. }
  assert (Hunknown : ∀ r : SliceRequest.t,
       lookupToken axisTokens (strings.ToLower (SliceRequest.Direction r))
       = None →
       SliceRequest.execute r handle
       = (Err (InvalidArgument
                 ("invalid direction '"
                  +:+ strings.ToLower (SliceRequest.Direction r)
                  +:+ "', valid options are: " +:+ axisOptions)), [])).
  { intros r Hl. unfold SliceRequest.execute, GetAxis. by rewrite Hl. }
  split; [exact Hcase|split; [|split; [exact Hunknown|]]].
  - unfold SliceRequest.execute. by rewrite Hcase, Hline, Hbounds.
  - intros r Hr.
    assert (Hlow : strings.ToLower (SliceRequest.Direction r) = "unknown").
    { destruct Hr as [Hr|Hr]; [|done].
      rewrite (ToLower_caseVariant _ "unknown"); [done| |done].
      by rewrite (caseVariant_isASCII _ _ Hr). }
    eexists. split; [apply Hunknown; by rewrite Hlow|].
    rewrite Hlow. by vm_compute.
Qed.

End Direction.

(* ===================================================================== *)
(** ** Fingerprints *)
(* ===================================================================== *)
Section Fingerprint.
Context `{Engine} `{!strings.Unicode}.
Context `{!Stringable SliceRequest.t} `{!Hasher SliceRequest.t}.
Context `{!Stringable FenceRequest.t} `{!Hasher FenceRequest.t}.
Context `{!Stringable AttributeAlongSurfaceRequest.t}
        `{!Hasher AttributeAlongSurfaceRequest.t}.
Context `{!Stringable AttributeBetweenSurfacesRequest.t}
        `{!Hasher AttributeBetweenSurfacesRequest.t}.

Lemma stripSas_same_Vds (a b : RequestedResource) :
  Vds a = Vds b → stripSas a = stripSas b.
Proof. unfold stripSas. by intros ->. Qed.

(** C9. Two data requests that differ only in the SAS token have the same
    fingerprint, whatever the digest is. *)
Theorem fingerprint_ignores_credentials (r1 r2 : AnyRequest) :
  differOnlyInCredentials r1 r2 → fingerprint r1 = fingerprint r2.
Proof.
  destruct r1 as [a|a|a|a], r2 as [b|b|b|b]; simpl; try done.
  - intros (Hv & Hd & Hl & Hb). f_equal. unfold SliceRequest_strip.
    by rewrite (stripSas_same_Vds _ _ Hv), Hd, Hl, Hb.
  - intros (Hv & H1 & H2 & H3 & H4). f_equal. unfold FenceRequest_strip.
    by rewrite (stripSas_same_Vds _ _ Hv), H1, H2, H3, H4.
  - intros (Hv & H1 & H2 & H3 & H4 & H5 & H6). f_equal.
    unfold AttributeAlongSurfaceRequest_strip.
    by rewrite (stripSas_same_Vds _ _ Hv), H1, H2, H3, H4, H5, H6.
  - intros (Hv & H1 & H2 & H3 & H4 & H5). f_equal.
    unfold AttributeBetweenSurfacesRequest_strip.
    by rewrite (stripSas_same_Vds _ _ Hv), H1, H2, H3, H4, H5.
Qed.

End Fingerprint.

(* ===================================================================== *)
(** ** The endpoints *)
(* ===================================================================== *)
Section Endpoints.
Context {T : Type} `{!cache.Cache T}.
Context {C : Type} `{!Connection C}.
Context `{Engine} `{!HandleOpener C}.
Context `{!Binding SliceRequest.t} `{!Normalizable SliceRequest.t}.
Context `{!DataRequest SliceRequest.t}.
Variable e : Endpoint C.

(** A request that does not parse is aborted by the endpoint: the cache is
    not looked up and no handle is opened. *)
Lemma SliceGet_parse_failed (w : World T) err :
  parseGetRequest (V := SliceRequest.t) (ctx w) = Err err →
  run (SliceGet e) w
  = mkWorld (aborted err (ctx w)) (store w)
            (trace w ++ [EvAbort (httpStatusCode (Some err))]).
Proof. intros Hp. unfold SliceGet. unfold_handler. by rewrite Hp. Qed.

Lemma SlicePost_parse_failed (w : World T) err :
  parsePostRequest (V := SliceRequest.t) (ctx w) = Err err →
  run (SlicePost e) w
  = mkWorld (aborted err (ctx w)) (store w)
            (trace w ++ [EvAbort (httpStatusCode (Some err))]).
Proof. intros Hp. unfold SlicePost. unfold_handler. by rewrite Hp. Qed.

(** A request that parses is handed to [makeDataRequest] as it is. *)
Lemma SliceGet_parsed (w : World T) request :
  parseGetRequest (V := SliceRequest.t) (ctx w) = Ok request →
  run (SliceGet e) w = run (makeDataRequest e request) w.
Proof. intros Hp. unfold SliceGet, run, orReturn, getCtx, bind. by rewrite Hp. Qed.

Lemma SlicePost_parsed (w : World T) request :
  parsePostRequest (V := SliceRequest.t) (ctx w) = Ok request →
  run (SlicePost e) w = run (makeDataRequest e request) w.
Proof. intros Hp. unfold SlicePost, run, orReturn, getCtx, bind. by rewrite Hp. Qed.

End Endpoints.

(* ===================================================================== *)
(** ** Closed examples on the sample deployment *)
(* ===================================================================== *)
Section Examples.
Import sample.

(** C7, as stated, fails: a slice request with the direction "unknown" does
    not pass the validation of execute (and execute makes no engine call),
    yet its handler has opened the handle before execute runs, and closes
    it after the abort. *)
Lemma handle_opened_before_validation :
  isOk (GetAxis (strings.ToLower
          (SliceRequest.Direction (sample.sliceRequest "valid" "unknown" 1))))
  = false
  ∧ SliceRequest.execute (sample.sliceRequest "valid" "unknown" 1) sample.handle
    = (Err (InvalidArgument
         "invalid direction 'unknown', valid options are: i, j, k, inline, crossline or depth/time/sample"),
       [])
  ∧ trace (run (sample.serveSlice (sample.sliceRequest "valid" "unknown" 1))
               (sample.world ∅))
    = [EvCacheGet "well_known||unknown|1"; EvNewDSHandle true;
       EvAbort 400; EvClose].
Proof. repeat split; by vm_compute. Qed.

Lemma cache_hit_requires_authorization_witness :
  connect sample.endpoint (sample.sliceRequest "valid" "i" 0)
  = Ok (sample.mkConn "well_known" "valid")
  ∧ hash (sample.sliceRequest "valid" "i" 0) = Ok "well_known||i|0"
  ∧ cache.Get sample.warm "well_known||i|0" = (sample.cachedEntry, true)
  ∧ run (sample.serveSlice (sample.sliceRequest "valid" "i" 0))
        (sample.world sample.warm)
    = servedFromCache (sample.sliceRequest "valid" "i" 0)
        "well_known||i|0" sample.cachedEntry (sample.world sample.warm).
Proof.
  assert (H1 : connect sample.endpoint (sample.sliceRequest "valid" "i" 0)
               = Ok (sample.mkConn "well_known" "valid")) by reflexivity.
  assert (H2 : hash (sample.sliceRequest "valid" "i" 0)
               = Ok "well_known||i|0") by reflexivity.
  assert (H3 : cache.Get (store (sample.world sample.warm)) "well_known||i|0"
               = (sample.cachedEntry, true)) by (vm_compute; reflexivity).
  split; [exact H1|]. split; [exact H2|]. split; [exact H3|].
  apply (cache_hit_requires_authorization sample.endpoint _ _ _ _ _ H1 H2 H3).
  reflexivity.
Defined.

Lemma executed_result_cached_and_returned_witness :
  connect sample.endpoint (sample.sliceRequest "valid" "i" 0)
  = Ok (sample.mkConn "well_known" "valid")
  ∧ hash (sample.sliceRequest "valid" "i" 0) = Ok "well_known||i|0"
  ∧ (cache.Get (∅ : gmap string cache.CacheEntry) "well_known||i|0").2
    && IsAuthorizedToRead (sample.mkConn "well_known" "valid") = false
  ∧ NewDSHandle (sample.mkConn "well_known" "valid") = Ok sample.handle
  ∧ execute (sample.sliceRequest "valid" "i" 0) sample.handle
    = (Ok ([[Byte.x03]], [Byte.x02]), [CallGetSliceMetadata; CallGetSlice])
  ∧ cache.Get (store (run (sample.serveSlice (sample.sliceRequest "valid" "i" 0))
                          (sample.world ∅))) "well_known||i|0"
    = (cache.NewCacheEntry [[Byte.x03]] [Byte.x02], true)
  ∧ gin.Written (ctx (run (sample.serveSlice (sample.sliceRequest "valid" "i" 0))
                          (sample.world ∅)))
    = gin.MultipartBody [[Byte.x02]; [Byte.x03]].
Proof.
  assert (H1 : connect sample.endpoint (sample.sliceRequest "valid" "i" 0)
               = Ok (sample.mkConn "well_known" "valid")) by reflexivity.
  assert (H2 : hash (sample.sliceRequest "valid" "i" 0)
               = Ok "well_known||i|0") by reflexivity.
  assert (H3 : (cache.Get (store (sample.world ∅)) "well_known||i|0").2
               && IsAuthorizedToRead (sample.mkConn "well_known" "valid")
               = false) by (vm_compute; reflexivity).
  assert (H4 : NewDSHandle (sample.mkConn "well_known" "valid")
               = Ok sample.handle) by reflexivity.
  assert (H5 : execute (sample.sliceRequest "valid" "i" 0) sample.handle
               = (Ok ([[Byte.x03]], [Byte.x02]),
                  [CallGetSliceMetadata; CallGetSlice])) by reflexivity.
  destruct (executed_result_cached_and_returned sample.endpoint
              _ _ _ _ _ _ _ _ H1 H2 H3 H4 H5) as (_ & Hget & _ & _ & Hw & _).
  split; [exact H1|]. split; [exact H2|]. split; [exact H3|].
  split; [exact H4|]. split; [exact H5|]. split; [exact Hget|exact Hw].
Defined.

Lemma failure_is_never_cached_witness :
  gin.Aborted (ctx (sample.world sample.warm)) = false
  ∧ stageFailure sample.endpoint (sample.sliceRequest "valid" "unknown" 1)
      (sample.world sample.warm)
  ∧ store (run (sample.serveSlice (sample.sliceRequest "valid" "unknown" 1))
               (sample.world sample.warm)) = sample.warm.
Proof.
  assert (H1 : gin.Aborted (ctx (sample.world sample.warm)) = false)
    by reflexivity.
  assert (H2 : stageFailure sample.endpoint
                 (sample.sliceRequest "valid" "unknown" 1)
                 (sample.world sample.warm)) by (vm_compute; reflexivity).
  split; [exact H1|]. split; [exact H2|].
  destruct (failure_is_never_cached sample.endpoint
              (sample.sliceRequest "valid" "unknown" 1)
              (sample.world sample.warm) H1) as [_ Hframe].
  destruct (Hframe H2) as [Hstore _]. exact Hstore.
Defined.

Lemma vertical_window_validated_witness :
  finite32 (float32_const (-1)) = true
  ∧ finite32 (float32_const 1) = true
  ∧ validateVerticalWindow
      (float32_const (-1)) (float32_const 1) (float32_const 1)
    = Some (InvalidArgument
              "'above' out of range! Must be within [0, 250], was -1.000000")
  ∧ AttributeAlongSurfaceRequest.execute
      (sample.alongRequest (-1) 1 1) sample.handle
    = (Err (InvalidArgument
              "'above' out of range! Must be within [0, 250], was -1.000000"),
       []).
Proof.
  assert (Ha : finite32 (float32_const (-1)) = true) by reflexivity.
  assert (Hb : finite32 (float32_const 1) = true) by reflexivity.
  assert (Hv : validateVerticalWindow
                 (float32_const (-1)) (float32_const 1) (float32_const 1)
               = Some (InvalidArgument
                   "'above' out of range! Must be within [0, 250], was -1.000000"))
    by (vm_compute; reflexivity).
  split; [exact Ha|]. split; [exact Hb|]. split; [exact Hv|].
  destruct (vertical_window_validated (sample.alongRequest (-1) 1 1)
              sample.handle Ha Hb Hb) as (_ & _ & _ & _ & Hexec & _).
  destruct (Hexec _ Hv) as [Hx _]. exact Hx.
Defined.

Lemma missing_query_is_its_own_error_witness :
  gin.Query (gin.empty ∅) !! "query" = None
  ∧ gin.Query (gin.empty {[ "query" := "help I am a duck" ]}) !! "query"
    = Some "help I am a duck"
  ∧ Unmarshal (V := MetadataRequest) "help I am a duck"
    = Err (OtherError "invalid character 'h' looking for beginning of value")
  ∧ sample.parseMetadataGet (gin.empty ∅)
    ≠ sample.parseMetadataGet (gin.empty {[ "query" := "help I am a duck" ]}).
Proof.
  assert (H1 : gin.Query (gin.empty ∅) !! "query" = None) by reflexivity.
  assert (H2 : gin.Query (gin.empty {[ "query" := "help I am a duck" ]})
               !! "query" = Some "help I am a duck")
    by (vm_compute; reflexivity).
  assert (H3 : Unmarshal (V := MetadataRequest) "help I am a duck"
               = Err (OtherError
                   "invalid character 'h' looking for beginning of value"))
    by reflexivity.
  split; [exact H1|]. split; [exact H2|]. split; [exact H3|].
  destruct (missing_query_is_its_own_error (V := MetadataRequest)
              _ _ _ _ H1 H2 H3) as (_ & _ & _ & Hne & _).
  exact Hne.
Defined.

Lemma slice_direction_case_insensitive_witness :
  strings.isASCII "I" = true
  ∧ caseVariant "I" "i"
  ∧ SliceRequest.execute (sample.sliceRequest "valid" "I" 0) sample.handle
    = SliceRequest.execute (sample.sliceRequest "valid" "i" 0) sample.handle.
Proof.
  assert (Ha : strings.isASCII "I" = true) by reflexivity.
  assert (Hc : caseVariant "I" "i").
  { simpl. split; [|exact I]. right; left. unfold upperCase.
    split; [split|]; vm_compute; (reflexivity || discriminate). }
  split; [exact Ha|]. split; [exact Hc|].
  destruct (slice_direction_case_insensitive
              (sample.sliceRequest "valid" "I" 0)
              (sample.sliceRequest "valid" "i" 0) sample.handle
              eq_refl eq_refl eq_refl (or_introl (conj Ha Hc)))
    as (_ & Heq & _).
  exact Heq.
Defined.

Lemma fingerprint_ignores_credentials_witness :
  differOnlyInCredentials
    (SliceR (sample.sliceRequest "valid" "i" 0))
    (SliceR (sample.sliceRequest "expired" "i" 0))
  ∧ fingerprint (SliceR (sample.sliceRequest "valid" "i" 0))
    = fingerprint (SliceR (sample.sliceRequest "expired" "i" 0)).
Proof.
  assert (Hd : differOnlyInCredentials
                 (SliceR (sample.sliceRequest "valid" "i" 0))
                 (SliceR (sample.sliceRequest "expired" "i" 0)))
    by (simpl; repeat split; reflexivity).
  split; [exact Hd|].
  exact (fingerprint_ignores_credentials _ _ Hd).
Defined.

End Examples.

(* ===================================================================== *)
(** ** The execute methods and the engine *)
(* ===================================================================== *)
Section Executes.
Context `{Engine} `{!strings.Unicode}.

(** X1. A slice asks the engine for its metadata first and for the slice
    only when that succeeded; a success is exactly one data block, the
    slice the engine returned, with the engine's metadata; a failure is the
    error of the first failing step, unchanged. *)
Theorem slice_execute_discipline
    (request : SliceRequest.t) (handle : DSHandle) :
  let result := (SliceRequest.execute request handle).1 in
  let calls := (SliceRequest.execute request handle).2 in
  let direction := strings.ToLower (SliceRequest.Direction request) in
  let lineno := SliceRequest.Lineno request in
  let bounds := SliceRequest.Bounds request in
  calls `prefix_of` [CallGetSliceMetadata; CallGetSlice]
  ∧ (isOk result = true → calls = [CallGetSliceMetadata; CallGetSlice])
  ∧ (∀ data metadata, result = Ok (data, metadata) →
       ∃ axis res, GetAxis direction = Ok axis
         ∧ GetSliceMetadata handle lineno axis bounds = Ok metadata
         ∧ GetSlice handle lineno axis bounds = Ok res
         ∧ data = [res])
  ∧ (∀ err, result = Err err →
       (GetAxis direction = Err err ∧ calls = [])
       ∨ ∃ axis, GetAxis direction = Ok axis
           ∧ ((GetSliceMetadata handle lineno axis bounds = Err err
               ∧ calls = [CallGetSliceMetadata])
              ∨ (isOk (GetSliceMetadata handle lineno axis bounds) = true
                 ∧ GetSlice handle lineno axis bounds = Err err
                 ∧ calls = [CallGetSliceMetadata; CallGetSlice]))).
Proof.
  intros result calls direction lineno bounds.
  subst result calls direction lineno bounds.
  unfold SliceRequest.execute.
  destruct (GetAxis _) as [axis|e0]; simpl.
  2:{ split; [apply prefix_nil|]. split; [done|]. split; [done|].
      intros err [= <-]. by left. }
  destruct (GetSliceMetadata handle _ axis _) as [md|e1] eqn:Hm; simpl.
  2:{ split; [by exists [CallGetSlice]|]. split; [done|]. split; [done|].
      intros err [= <-]. right. exists axis. split; [done|]. left.
      by rewrite Hm. }
  destruct (GetSlice handle _ axis _) as [res|e2] eqn:Hs; simpl.
  - split; [done|]. split; [done|]. split; [|done].
    intros data metadata [= <- <-]. by exists axis, res.
  - split; [done|]. split; [done|]. split; [done|].
    intros err [= <-]. right. exists axis. split; [done|]. right.
    by rewrite Hm.
Qed.



(** X4. Attributes between two surfaces: nothing but the interpolation
    token is checked before the engine is asked (the stepsize goes to the
    engine as it is, whatever its value); the metadata of the primary
    surface is asked for first and the attributes only when that
    succeeded; a failure is the error of the first failing step. *)
Theorem between_execute_discipline
    (request : AttributeBetweenSurfacesRequest.t) (handle : DSHandle) :
  let result := (AttributeBetweenSurfacesRequest.execute request handle).1 in
  let calls := (AttributeBetweenSurfacesRequest.execute request handle).2 in
  let primary := AttributeBetweenSurfacesRequest.PrimarySurface request in
  let secondary := AttributeBetweenSurfacesRequest.SecondarySurface request in
  let method := AttributeBetweenSurfacesRequest.Interpolation request in
  calls `prefix_of`
    [CallGetAttributeMetadata; CallGetAttributesBetweenSurfaces]
  ∧ (calls = [] ↔ isOk (GetInterpolationMethod method) = false)
  ∧ (isOk result = true →
       calls = [CallGetAttributeMetadata; CallGetAttributesBetweenSurfaces])
  ∧ (∀ data metadata, result = Ok (data, metadata) →
       ∃ interpolation,
         GetInterpolationMethod method = Ok interpolation
         ∧ GetAttributeMetadata handle (Values primary) = Ok metadata
         ∧ GetAttributesBetweenSurfaces handle primary secondary
             (AttributeBetweenSurfacesRequest.Stepsize request)
             (AttributeBetweenSurfacesRequest.Attributes request)
             interpolation = Ok data)
  ∧ (∀ err, result = Err err →
       (GetInterpolationMethod method = Err err ∧ calls = [])
       ∨ (GetAttributeMetadata handle (Values primary) = Err err
          ∧ calls = [CallGetAttributeMetadata])
       ∨ (isOk (GetAttributeMetadata handle (Values primary)) = true
          ∧ calls
            = [CallGetAttributeMetadata; CallGetAttributesBetweenSurfaces]
          ∧ ∃ interpolation,
              GetInterpolationMethod method = Ok interpolation
              ∧ GetAttributesBetweenSurfaces handle primary secondary
                  (AttributeBetweenSurfacesRequest.Stepsize request)
                  (AttributeBetweenSurfacesRequest.Attributes request)
                  interpolation = Err err)).
Proof.
  intros result calls primary secondary method.
  subst result calls primary secondary method.
  unfold AttributeBetweenSurfacesRequest.execute.
  destruct (GetInterpolationMethod _) as [interp|e0]; simpl.
  2:{ split; [apply prefix_nil|]. split; [done|]. split; [done|].
      split; [done|]. intros err [= <-]. by left. }
  destruct (GetAttributeMetadata handle _) as [md|e1] eqn:Hm; simpl.
  2:{ split; [by exists [CallGetAttributesBetweenSurfaces]|].
      split; [done|]. split; [done|]. split; [done|].
      intros err [= <-]. right. by left. }
  destruct (GetAttributesBetweenSurfaces handle _ _ _ _ _)
    as [blocks|e2] eqn:Hd; simpl.
  - split; [done|]. split; [done|]. split; [done|]. split; [|done].
    intros data metadata [= <- <-]. by exists interp.
  - split; [done|]. split; [done|]. split; [done|]. split; [done|].
    intros err [= <-]. do 2 right. split; [done|]. split; [done|].
    by exists interp.
Qed.

(** X5. Two fence requests whose coordinate system tokens are made of
    ASCII bytes and differ only in the case of their letters, and that are
    the same otherwise, have the same result of execute. *)
Theorem fence_coordinate_system_case_insensitive
    (r1 r2 : FenceRequest.t) (handle : DSHandle) :
  strings.isASCII (FenceRequest.CoordinateSystem r1) = true →
  caseVariant (FenceRequest.CoordinateSystem r1)
              (FenceRequest.CoordinateSystem r2) →
  FenceRequest.Coordinates r1 = FenceRequest.Coordinates r2 →
  FenceRequest.Interpolation r1 = FenceRequest.Interpolation r2 →
  FenceRequest.FillValue r1 = FenceRequest.FillValue r2 →
  FenceRequest.execute r1 handle = FenceRequest.execute r2 handle.
Proof.
  intros Hascii Hcase Hc Hi Hf. unfold FenceRequest.execute.
  by rewrite (ToLower_caseVariant _ _ Hascii Hcase), Hc, Hi, Hf.
Qed.

End Executes.

(* ===================================================================== *)
(** ** Parsing, continued *)
(* ===================================================================== *)
Section ParseOutcomes.
Context {V : Type} `{!Binding V} `{!Normalizable V}.

(** X6. Parsing a GET request succeeds only when the query parameter is
    there, decodes, validates and normalizes, and then gives the normalized
    value.  A failure is an InvalidArgument, except that an error of the
    normalization is passed on as it is; an error of the validator becomes
    an InvalidArgument with the validator's message. *)
Theorem parseGetRequest_outcomes (c : gin.Context) :
  (∀ v', parseGetRequest (V := V) c = Ok v' →
     ∃ query v, gin.Query c !! "query" = Some query
       ∧ Unmarshal query = Ok v ∧ ValidateStruct v = None
       ∧ NormalizeConnection v = Ok v')
  ∧ (∀ err, parseGetRequest (V := V) c = Err err →
       isInvalidArgument err = true
       ∨ ∃ query v, gin.Query c !! "query" = Some query
           ∧ Unmarshal query = Ok v ∧ ValidateStruct v = None
           ∧ NormalizeConnection v = Err err)
  ∧ (∀ query v err0,
       gin.Query c !! "query" = Some query →
       Unmarshal (V := V) query = Ok v →
       ValidateStruct v = Some err0 →
       parseGetRequest (V := V) c = Err (InvalidArgument (Error err0))).
Proof.
  unfold parseGetRequest, gin.GetQuery.
  destruct (gin.Query c !! "query") as [query|]; simpl.
  2:{ split; [done|]. split; [|done]. intros err [= <-]. by left. }
  destruct (Unmarshal query) as [v|e0] eqn:Hu.
  2:{ split; [done|]. split; [|intros ??? [= <-]; by rewrite Hu].
      intros err [= <-]. by left. }
  destruct (ValidateStruct v) as [e1|] eqn:Hv.
  { split; [done|]. split.
    - intros err [= <-]. by left.
    - intros ??? [= <-]. rewrite Hu. intros [= <-]. rewrite Hv.
      by intros [= <-]. }
  split; [|split].
  - intros v' Hn. by exists query, v.
  - intros err Hn. right. by exists query, v.
  - intros ??? [= <-]. rewrite Hu. intros [= <-]. by rewrite Hv.
Qed.

(** X7. Parsing a POST request succeeds only when the body binds and the
    value normalizes.  An error of the binding, of whatever type, becomes
    an InvalidArgument with the same message; an error of the
    normalization is passed on as it is. *)
Theorem parsePostRequest_outcomes (c : gin.Context) :
  (∀ v', parsePostRequest (V := V) c = Ok v' →
     ∃ v, ShouldBind c = Ok v ∧ NormalizeConnection v = Ok v')
  ∧ (∀ err, parsePostRequest (V := V) c = Err err →
       (∃ err0, ShouldBind (V := V) c = Err err0
                ∧ err = InvalidArgument (Error err0))
       ∨ ∃ v, ShouldBind c = Ok v ∧ NormalizeConnection v = Err err)
  ∧ (∀ err0, ShouldBind (V := V) c = Err err0 →
       httpStatusCode (err_of (parsePostRequest (V := V) c))
       = http.StatusBadRequest).
Proof.
  unfold parsePostRequest.
  destruct (ShouldBind c) as [v|e0]; simpl.
  - split; [|split; [|done]].
    + intros v' Hn. by exists v.
    + intros err Hn. right. by exists v.
  - split; [done|]. split; [|done].
    intros err [= <-]. left. by exists e0.
Qed.

End ParseOutcomes.

(* ===================================================================== *)
(** ** The endpoints, continued *)
(* ===================================================================== *)
Section AllEndpoints.
Context {T : Type} `{!cache.Cache T}.
Context {C : Type} `{!Connection C}.
Context `{Engine} `{!HandleOpener C}.
Context `{!Binding MetadataRequest} `{!Normalizable MetadataRequest}.
Context `{!Stringable MetadataRequest}.
Context `{!Binding SliceRequest.t} `{!Normalizable SliceRequest.t}.
Context `{!DataRequest SliceRequest.t}.
Context `{!Binding FenceRequest.t} `{!Normalizable FenceRequest.t}.
Context `{!DataRequest FenceRequest.t}.
Context `{!Binding AttributeAlongSurfaceRequest.t}.
Context `{!Normalizable AttributeAlongSurfaceRequest.t}.
Context `{!DataRequest AttributeAlongSurfaceRequest.t}.
Context `{!Binding AttributeBetweenSurfacesRequest.t}.
Context `{!Normalizable AttributeBetweenSurfacesRequest.t}.
Context `{!DataRequest AttributeBetweenSurfacesRequest.t}.
Variable e : Endpoint C.

Ltac endpoint_unfold :=
  unfold parsesThenHandles, run, orReturn, abortOnError, AbortWithError,
    modifyCtx, emit, getCtx, bind, ret, aborted;
  intros w; simpl;
  match goal with
  | |- context [parseGetRequest ?c] => destruct (parseGetRequest c)
  | |- context [parsePostRequest ?c] => destruct (parsePostRequest c)
  end; reflexivity.

(** X8. Each of the eight endpoints parses the request first.  When that
    fails the endpoint aborts with the status of the error and does
    nothing else: no cache lookup, no connection, no handle.  When it
    succeeds the endpoint does exactly what its handler does on the parsed
    request. *)
Theorem endpoints_parse_then_handle :
  parsesThenHandles (T := T) parseGetRequest (metadata e) (MetadataGet e)
  ∧ parsesThenHandles (T := T) parsePostRequest (metadata e) (MetadataPost e)
  ∧ parsesThenHandles (T := T) parseGetRequest
      (makeDataRequest (R := SliceRequest.t) e) (SliceGet e)
  ∧ parsesThenHandles (T := T) parsePostRequest
      (makeDataRequest (R := SliceRequest.t) e) (SlicePost e)
  ∧ parsesThenHandles (T := T) parseGetRequest
      (makeDataRequest (R := FenceRequest.t) e) (FenceGet e)
  ∧ parsesThenHandles (T := T) parsePostRequest
      (makeDataRequest (R := FenceRequest.t) e) (FencePost e)
  ∧ parsesThenHandles (T := T) parsePostRequest
      (makeDataRequest (R := AttributeAlongSurfaceRequest.t) e)
      (AttributesAlongSurfacePost e)
  ∧ parsesThenHandles (T := T) parsePostRequest
      (makeDataRequest (R := AttributeBetweenSurfacesRequest.t) e)
      (AttributesBetweenSurfacesPost e).
Proof.
  repeat split.
  - unfold MetadataGet. endpoint_unfold.
  - unfold MetadataPost. endpoint_unfold.
  - unfold SliceGet. endpoint_unfold.
  - unfold SlicePost. endpoint_unfold.
  - unfold FenceGet. endpoint_unfold.
  - unfold FencePost. endpoint_unfold.
  - unfold AttributesAlongSurfacePost. endpoint_unfold.
  - unfold AttributesBetweenSurfacesPost. endpoint_unfold.
Qed.

End AllEndpoints.

Section GetEndpoints.
Context {T : Type} `{!cache.Cache T}.
Context {C : Type} `{!Connection C}.
Context `{Engine} `{!HandleOpener C}.
Context `{!Binding MetadataRequest} `{!Normalizable MetadataRequest}.
Context `{!Stringable MetadataRequest}.
Context `{!Binding SliceRequest.t} `{!Normalizable SliceRequest.t}.
Context `{!DataRequest SliceRequest.t}.
Context `{!Binding FenceRequest.t} `{!Normalizable FenceRequest.t}.
Context `{!DataRequest FenceRequest.t}.
Variable e : Endpoint C.

(** X9. A GET request without a query parameter, to any of the three GET
    endpoints, is answered with status 400 and the error that asks for the
    parameter; nothing is written, the cache is neither read nor changed
    and no handle is opened. *)
Theorem get_without_query_is_bad_request (w : World T) :
  gin.Query (ctx w) !! "query" = None →
  let rejected :=
    mkWorld (gin.AbortWithError http.StatusBadRequest
               (InvalidArgument missingQueryMessage) (ctx w))
            (store w) (trace w ++ [EvAbort http.StatusBadRequest]) in
  run (MetadataGet e) w = rejected
  ∧ run (SliceGet e) w = rejected
  ∧ run (FenceGet e) w = rejected.
Proof.
  intros Hq rejected. subst rejected.
  unfold MetadataGet, SliceGet, FenceGet, parseGetRequest, gin.GetQuery.
  unfold_handler. by rewrite Hq.
Qed.

End GetEndpoints.

(* ===================================================================== *)
(** ** Outcomes of the two handlers *)
(* ===================================================================== *)
Lemma outcomesOf_app (evs1 evs2 : list Event) :
  outcomesOf (evs1 ++ evs2) = outcomesOf evs1 ++ outcomesOf evs2.
Proof. apply omap_app. Qed.

Lemma outcomesOf_engine (calls : list EngineCall) :
  outcomesOf (EvEngine <$> calls) = [].
Proof. induction calls as [|c calls IH]; [done|]. simpl. apply IH. Qed.

Section MetadataOutcome.
Context {T : Type}.
Context {C : Type}.
Context `{Engine} `{!HandleOpener C} `{!Stringable MetadataRequest}.
Variables (e : Endpoint C) (request : MetadataRequest).

(** X10. A metadata request is answered exactly once: with status 200 and
    the document of the handle as application/json when the connection,
    the handle and the engine call all succeed, and otherwise by an abort
    with the status of the first error, nothing written.  A handle that is
    opened is closed, after the answer, on both paths. *)
Theorem metadata_outcome (w : World T) :
  let w' := run (metadata e request) w in
  let made := MakeVdsConnection e (Vds (MetadataResource request))
                                  (Sas (MetadataResource request)) in
  ∃ evs, trace w' = trace w ++ evs
    ∧ handleScoped evs
    ∧ ((∃ conn handle buffer,
          made = Ok conn ∧ NewDSHandle conn = Ok handle
          ∧ GetMetadata handle = Ok buffer
          ∧ evs = [EvNewDSHandle true; EvEngine CallGetMetadata;
                   EvResponse http.StatusOK; EvClose]
          ∧ ctx w' = gin.Data http.StatusOK "application/json" buffer
                       (logged request (ctx w)))
       ∨ (∃ err,
            (made = Err err
             ∨ ∃ conn, made = Ok conn
                 ∧ (NewDSHandle conn = Err err
                    ∨ ∃ handle, NewDSHandle conn = Ok handle
                        ∧ GetMetadata handle = Err err))
            ∧ outcomesOf evs = [AbortedWith (httpStatusCode (Some err))]
            ∧ ctx w' = aborted err (logged request (ctx w)))).
Proof.
  intros w' made. subst w' made. unfold_handler.
  destruct (toString request) as [text ?]. simpl.
  destruct (MakeVdsConnection e _ _) as [conn|err]; simpl.
  2:{ eexists. split; [done|]. split; [left; by repeat constructor|].
      right. exists err. split; [by left|done]. }
  destruct (NewDSHandle conn) as [handle|err] eqn:Ho; simpl.
  2:{ eexists. split; [by rewrite <- app_assoc|].
      split; [left; by repeat constructor|].
      right. exists err. split; [|done]. right. exists conn.
      split; [done|]. by left. }
  destruct (GetMetadata handle) as [buffer|err] eqn:Hm; simpl.
  - eexists. split; [by rewrite <- !app_assoc|]. split.
    { right. exists [], [EvEngine CallGetMetadata; EvResponse http.StatusOK].
      split; [done|]. split; by repeat constructor. }
    left. by exists conn, handle, buffer.
  - eexists. split; [by rewrite <- !app_assoc|]. split.
    { right. exists [],
        [EvEngine CallGetMetadata; EvAbort (httpStatusCode (Some err))].
      split; [done|]. split; by repeat constructor. }
    right. exists err. split; [|done]. right. exists conn.
    split; [done|]. right. by exists handle.
Qed.

End MetadataOutcome.

Section DataOutcome.
Context {T : Type} `{!cache.Cache T}.
Context {C : Type} `{!Connection C}.
Context `{Engine} `{!HandleOpener C}.
Context {R : Type} `{!DataRequest R}.
Variables (e : Endpoint C) (request : R).

(** X11. A data request is answered exactly once.  When a stage fails,
    the answer is one abort carrying the error of the first failing stage
    (connection, fingerprint, handle, execute), with the status
    [httpStatusCode] gives that error, and nothing is written.  When none
    fails, the answer is one reply with status 200: the parts of the cached
    entry, flagged, when it is served from the cache, and otherwise the
    metadata and data blocks that execute returned. *)
Theorem data_request_answers_once (w : World T) :
  let w' := run (makeDataRequest e request) w in
  (stageFailure e request w ↔ is_Some (stageError e request w))
  ∧ ∃ evs, trace w' = trace w ++ evs
    ∧ match stageError e request w with
      | Some err =>
          outcomesOf evs = [AbortedWith (httpStatusCode (Some err))]
          ∧ ctx w' = aborted err (logged request (ctx w))
      | None =>
          outcomesOf evs = [Replied http.StatusOK]
          ∧ ((servesFromCache e request w = true
              ∧ ∃ key, hash request = Ok key
                  ∧ w' = servedFromCache request key
                           (cache.Get (store w) key).1 w)
             ∨ (servesFromCache e request w = false
                ∧ ∃ conn handle data metadata calls,
                    connect e request = Ok conn
                    ∧ NewDSHandle conn = Ok handle
                    ∧ execute request handle = (Ok (data, metadata), calls)
                    ∧ ctx w' = gin.Multipart http.StatusOK (metadata :: data)
                                 (logged request (ctx w))))
      end.
Proof.
  intros w'. unfold stageFailure, stageError, servesFromCache.
  destruct (run_makeDataRequest_cases e request w) as
    [(err & Hc & Hw)
    |[(conn & err & Hc & Hh & Hw)
    |[(conn & key & Hc & Hh & Hg & Hw)
    |[(conn & key & err & Hc & Hh & Hg & Ho & Hw)
    |[(conn & key & handle & err & calls & Hc & Hh & Hg & Ho & Hx & Hw)
    |(conn & key & handle & data & metadata & calls
        & Hc & Hh & Hg & Ho & Hx & Hw)]]]]];
    fold w' in Hw; rewrite Hc; try rewrite Hh; try rewrite Hg;
    try rewrite Ho; try rewrite Hx; simpl.
  - split; [by split|]. rewrite Hw. by eexists.
  - split; [by split|]. rewrite Hw. by eexists.
  - split; [split; [done|by intros [? [=]]]|].
    eexists. split; [by rewrite Hw|]. split; [done|]. left.
    split; [done|]. by exists key.
  - split; [by split|]. rewrite Hw. by eexists.
  - split; [by split|]. rewrite Hw. simpl. eexists. split; [done|].
    split; [|done].
    unfold outcomesOf. simpl. rewrite omap_app.
    change (omap outcomeOf (EvEngine <$> calls))
      with (outcomesOf (EvEngine <$> calls)).
    by rewrite outcomesOf_engine.
  - split; [split; [done|by intros [? [=]]]|].
    rewrite Hw. simpl. eexists. split; [done|]. split.
    { unfold outcomesOf. simpl. rewrite omap_app.
      change (omap outcomeOf (EvEngine <$> calls))
        with (outcomesOf (EvEngine <$> calls)).
      by rewrite outcomesOf_engine. }
    right. split; [done|]. by exists conn, handle, data, metadata, calls.
Qed.

(** X13. On a context where the flag is not set, a data request leaves the
    cache-hit flag true exactly when it was served from the cache: the
    fingerprint was found and the connection is authorized to read. *)
Theorem cache_hit_flag_marks_cache_replies (w : World T) :
  gin.Keys (ctx w) !! "cache-hit" = None →
  metrics.GetBool (ctx (run (makeDataRequest e request) w)) "cache-hit"
  = servesFromCache e request w.
Proof.
  intros Hflag. unfold servesFromCache, metrics.GetBool.
  destruct (run_makeDataRequest_cases e request w) as
    [(err & Hc & Hw)
    |[(conn & err & Hc & Hh & Hw)
    |[(conn & key & Hc & Hh & Hg & Hw)
    |[(conn & key & err & Hc & Hh & Hg & Ho & Hw)
    |[(conn & key & handle & err & calls & Hc & Hh & Hg & Ho & Hx & Hw)
    |(conn & key & handle & data & metadata & calls
        & Hc & Hh & Hg & Ho & Hx & Hw)]]]]];
    rewrite Hw, Hc; try rewrite Hh; try rewrite Hg; simpl;
    by rewrite ?lookup_insert_eq, ?lookup_insert_ne, ?Hflag by done.
Qed.




End DataOutcome.

Section Logging.
Context {T : Type} `{!cache.Cache T}.
Context {C : Type} `{!Connection C}.
Context `{Engine} `{!HandleOpener C}.
Context {R : Type} `{!DataRequest R}.
Context `{!Stringable MetadataRequest}.
Variable e : Endpoint C.

(** X12. Whatever the outcome of a data request or of a metadata request,
    the text of the request ([toString], its error ignored) is in the
    context under the key "request" when the handler returns. *)
Theorem requests_are_always_logged
    (request : R) (about : MetadataRequest) (w : World T) :
  gin.Keys (ctx (run (makeDataRequest e request) w)) !! "request"
  = Some (gin.VString (toString request).1)
  ∧ gin.Keys (ctx (run (metadata e about) w)) !! "request"
    = Some (gin.VString (toString about).1).
Proof.
  split.
  - destruct (run_makeDataRequest_cases e request w) as
      [(err & Hc & Hw)
      |[(conn & err & Hc & Hh & Hw)
      |[(conn & key & Hc & Hh & Hg & Hw)
      |[(conn & key & err & Hc & Hh & Hg & Ho & Hw)
      |[(conn & key & handle & err & calls & Hc & Hh & Hg & Ho & Hx & Hw)
      |(conn & key & handle & data & metadata & calls
          & Hc & Hh & Hg & Ho & Hx & Hw)]]]]];
      rewrite Hw; simpl; rewrite ?lookup_insert_ne by done;
      by rewrite lookup_insert_eq.
  - unfold_handler. destruct (toString about) as [text ?]. simpl.
    destruct (MakeVdsConnection e _ _) as [conn|err]; simpl;
      [|by rewrite lookup_insert_eq].
    destruct (NewDSHandle conn) as [handle|err]; simpl;
      [|by rewrite lookup_insert_eq].
    destruct (GetMetadata handle) as [buffer|err]; simpl;
      by rewrite lookup_insert_eq.
Qed.

End Logging.

(* ===================================================================== *)
(** ** The cache as a map: round trips and frames *)
(* ===================================================================== *)
Section MapRoundTrip.
Context {C : Type} `{!Connection C}.
Context `{Engine} `{!HandleOpener C}.
Context {R : Type} `{!DataRequest R}.
Variable e : Endpoint C.

(** X15. What one request computed is what the next one with the same
    fingerprint gets: after a data request that executed, a request with
    the same fingerprint and a connection authorized to read is served the
    same metadata and data blocks from the cache, with no handle opened and
    no engine call, and leaves the cache as it found it. *)
Theorem computed_reply_is_served_again
    (w : World (gmap string cache.CacheEntry)) (first second : R)
    conn1 conn2 key handle data metadata calls
    (c2 : gin.Context) (t2 : list Event) :
  connect e first = Ok conn1 →
  hash first = Ok key →
  (cache.Get (store w) key).2 && IsAuthorizedToRead conn1 = false →
  NewDSHandle conn1 = Ok handle →
  execute first handle = (Ok (data, metadata), calls) →
  connect e second = Ok conn2 →
  hash second = Ok key →
  IsAuthorizedToRead conn2 = true →
  let w1 := run (makeDataRequest e first) w in
  let w2 := run (makeDataRequest e second) (mkWorld c2 (store w1) t2) in
  gin.Written (ctx w2) = gin.Written (ctx w1)
  ∧ gin.Written (ctx w2) = gin.MultipartBody (metadata :: data)
  ∧ gin.Status (ctx w2) = Some http.StatusOK
  ∧ trace w2 = t2 ++ [EvCacheGet key; EvResponse http.StatusOK]
  ∧ store w2 = store w1.
Proof.
  intros Hc1 Hh1 Hg1 Ho1 Hx1 Hc2 Hh2 Ha2 w1 w2. subst w2.
  pose proof (run_executed e first w conn1 key handle data metadata calls
                Hc1 Hh1 Hg1 Ho1 Hx1) as Hw1.
  fold w1 in Hw1. rewrite Hw1. simpl.
  rewrite (run_cache_hit e second _ conn2 key Hc2 Hh2); simpl;
    rewrite lookup_insert_eq; simpl; [done|by rewrite Ha2].
Qed.

End MapRoundTrip.

Section PartCount.
Context {C : Type} `{!Connection C}.
Context `{Engine} `{!strings.Unicode} `{!HandleOpener C}.
Context `{!Stringable SliceRequest.t} `{!Hasher SliceRequest.t}.
Context `{!Stringable FenceRequest.t} `{!Hasher FenceRequest.t}.
Variable e : Endpoint C.

Lemma slice_execute_single_block
    (request : SliceRequest.t) (handle : DSHandle) data metadata :
  (SliceRequest.execute request handle).1 = Ok (data, metadata) →
  ∃ block, data = [block].
Proof.
  unfold SliceRequest.execute.
  destruct (GetAxis _) as [axis|]; simpl; [|done].
  destruct (GetSliceMetadata _ _ _ _); simpl; [|done].
  destruct (GetSlice _ _ _ _) as [res|]; simpl; [|done].
  intros [= <- <-]. by exists res.
Qed.

Lemma fence_execute_single_block
    (request : FenceRequest.t) (handle : DSHandle) data metadata :
  (FenceRequest.execute request handle).1 = Ok (data, metadata) →
  ∃ block, data = [block].
Proof.
  unfold FenceRequest.execute.
  destruct (GetCoordinateSystem _) as [cs|]; simpl; [|done].
  destruct (GetInterpolationMethod _) as [interp|]; simpl; [|done].
  destruct (GetFenceMetadata _ _); simpl; [|done].
  destruct (GetFence _ _ _ _ _) as [res|]; simpl; [|done].
  intros [= <- <-]. by exists res.
Qed.

(** X17. A slice or a fence that is answered by executing it is answered
    with exactly two parts, the metadata and one data block, and the entry
    put in the cache for it holds exactly that one block. *)
Theorem slice_and_fence_replies_have_two_parts
    (w : World (gmap string cache.CacheEntry)) :
  (∀ (request : SliceRequest.t) conn key handle,
     connect e request = Ok conn →
     hash request = Ok key →
     (cache.Get (store w) key).2 && IsAuthorizedToRead conn = false →
     NewDSHandle conn = Ok handle →
     isOk (SliceRequest.execute request handle).1 = true →
     ∃ metadata block,
       gin.Written (ctx (run (makeDataRequest e request) w))
       = gin.MultipartBody [metadata; block]
       ∧ store (run (makeDataRequest e request) w) !! key
         = Some (cache.NewCacheEntry [block] metadata))
  ∧ (∀ (request : FenceRequest.t) conn key handle,
     connect e request = Ok conn →
     hash request = Ok key →
     (cache.Get (store w) key).2 && IsAuthorizedToRead conn = false →
     NewDSHandle conn = Ok handle →
     isOk (FenceRequest.execute request handle).1 = true →
     ∃ metadata block,
       gin.Written (ctx (run (makeDataRequest e request) w))
       = gin.MultipartBody [metadata; block]
       ∧ store (run (makeDataRequest e request) w) !! key
         = Some (cache.NewCacheEntry [block] metadata)).
Proof.
  split; intros request conn key handle Hc Hh Hg Ho Hok.
  - destruct (SliceRequest.execute request handle)
      as [[[data metadata]|err] calls] eqn:Hx; [|done].
    destruct (slice_execute_single_block request handle data metadata)
      as [block ->]; [by rewrite Hx|].
    exists metadata, block.
    rewrite (run_executed _ _ _ conn key handle [block] metadata calls); auto.
    simpl. by rewrite lookup_insert_eq.
  - destruct (FenceRequest.execute request handle)
      as [[[data metadata]|err] calls] eqn:Hx; [|done].
    destruct (fence_execute_single_block request handle data metadata)
      as [block ->]; [by rewrite Hx|].
    exists metadata, block.
    rewrite (run_executed _ _ _ conn key handle [block] metadata calls); auto.
    simpl. by rewrite lookup_insert_eq.
Qed.

End PartCount.

(* ===================================================================== *)
(** ** More closed examples on the sample deployment *)
(* ===================================================================== *)
Section MoreExamples.
Import sample.
Import sample_requests.

Lemma fence_coordinate_system_case_insensitive_witness :
  strings.isASCII "IJ" = true
  ∧ caseVariant "IJ" "ij"
  ∧ FenceRequest.execute (sample_requests.fenceRequest "IJ" "") sample.handle
    = FenceRequest.execute (sample_requests.fenceRequest "ij" "") sample.handle.
Proof.
  assert (Ha : strings.isASCII "IJ" = true) by reflexivity.
  assert (Hc : caseVariant "IJ" "ij").
  { simpl. split; [|split; [|exact I]]; right; left; unfold upperCase;
      (split; [split|]); vm_compute; (reflexivity || discriminate). }
  split; [exact Ha|]. split; [exact Hc|].
  exact (fence_coordinate_system_case_insensitive
           (sample_requests.fenceRequest "IJ" "")
           (sample_requests.fenceRequest "ij" "") sample.handle
           Ha Hc eq_refl eq_refl eq_refl).
Defined.

Lemma get_without_query_is_bad_request_witness :
  gin.Query (ctx (sample.world sample.warm)) !! "query" = None
  ∧ gin.Status (ctx (run sample_requests.sliceGet (sample.world sample.warm)))
    = Some 400
  ∧ store (run sample_requests.fenceGet (sample.world sample.warm))
    = sample.warm.
Proof.
  assert (Hq : gin.Query (ctx (sample.world sample.warm)) !! "query" = None)
    by reflexivity.
  split; [exact Hq|].
  destruct (get_without_query_is_bad_request sample.endpoint
              (sample.world sample.warm) Hq) as (_ & Hs & Hf).
  unfold sample_requests.sliceGet, sample_requests.fenceGet.
  rewrite Hs, Hf. split; reflexivity.
Defined.

Lemma cache_hit_flag_marks_cache_replies_witness :
  gin.Keys (ctx (sample.world sample.warm)) !! "cache-hit" = None
  ∧ metrics.GetBool
      (ctx (run (sample.serveSlice (sample.sliceRequest "valid" "i" 0))
                (sample.world sample.warm))) "cache-hit"
    = servesFromCache sample.endpoint (sample.sliceRequest "valid" "i" 0)
        (sample.world sample.warm).
Proof.
  assert (Hk : gin.Keys (ctx (sample.world sample.warm)) !! "cache-hit"
               = None) by reflexivity.
  split; [exact Hk|].
  exact (cache_hit_flag_marks_cache_replies sample.endpoint
           (sample.sliceRequest "valid" "i" 0) (sample.world sample.warm) Hk).
Defined.

Lemma computed_reply_is_served_again_witness :
  connect sample.endpoint (sample.sliceRequest "valid" "i" 0)
  = Ok (sample.mkConn "well_known" "valid")
  ∧ hash (sample.sliceRequest "valid" "i" 0) = Ok "well_known||i|0"
  ∧ IsAuthorizedToRead (sample.mkConn "well_known" "valid") = true
  ∧ gin.Written
      (ctx (run (sample.serveSlice (sample.sliceRequest "valid" "i" 0))
                (mkWorld (gin.empty ∅)
                   (store (run (sample.serveSlice
                                  (sample.sliceRequest "valid" "i" 0))
                               (sample.world ∅)))
                   [])))
    = gin.MultipartBody [[Byte.x02]; [Byte.x03]].
Proof.
  assert (H1 : connect sample.endpoint (sample.sliceRequest "valid" "i" 0)
               = Ok (sample.mkConn "well_known" "valid")) by reflexivity.
  assert (H2 : hash (sample.sliceRequest "valid" "i" 0)
               = Ok "well_known||i|0") by reflexivity.
  assert (H3 : (cache.Get (store (sample.world ∅)) "well_known||i|0").2
               && IsAuthorizedToRead (sample.mkConn "well_known" "valid")
               = false) by (vm_compute; reflexivity).
  assert (H4 : NewDSHandle (sample.mkConn "well_known" "valid")
               = Ok sample.handle) by reflexivity.
  assert (H5 : execute (sample.sliceRequest "valid" "i" 0) sample.handle
               = (Ok ([[Byte.x03]], [Byte.x02]),
                  [CallGetSliceMetadata; CallGetSlice])) by reflexivity.
  assert (H6 : IsAuthorizedToRead (sample.mkConn "well_known" "valid")
               = true) by reflexivity.
  split; [exact H1|]. split; [exact H2|]. split; [exact H6|].
  destruct (computed_reply_is_served_again sample.endpoint (sample.world ∅)
              (sample.sliceRequest "valid" "i" 0)
              (sample.sliceRequest "valid" "i" 0)
              _ _ _ _ _ _ _ (gin.empty ∅) []
              H1 H2 H3 H4 H5 H1 H2 H6) as (_ & Hw & _).
  exact Hw.
Defined.

End MoreExamples.
